(** * The Sentry rate-limit middleware, [sentry/middleware/ratelimit.py]

    A shallow embedding of [RatelimitMiddleware.__call__] and the properties
    of it that the design document states.

    The middleware is Python code that mutates three objects (the request,
    a local dictionary [data], the endpoint's response), calls collaborators
    that live in other modules, and catches exceptions in two [try] blocks.
    The embedding keeps all of that visible:

    - the mutable objects are the fields of a state record [St], the two
      dictionaries being finite maps from attribute/key names to Python
      values;
    - the collaborators are the fields of a record [Env], each giving the
      outcome (a value, a raised [Exception], or an exception that
      [except Exception] does not catch) of one call;
    - statements run in a state-and-exception monad [M], with a
      [try_except] combinator for the two handlers and a [flow] result for
      the early [return]s of the first [try] block;
    - every call that matters to the document (the check, the release, the
      endpoint, the logger, the id generator) leaves an [Event] in the
      state's trace. *)

From Stdlib Require Import ZArith String Ascii List DecimalString.
From stdpp Require Import gmap strings list fin_maps.
Import ListNotations.

Local Open Scope string_scope.
Local Open Scope Z_scope.

(** ** Python values *)

(** Modelled from the spec: the enumeration [RateLimitType] of
    [sentry.types.ratelimit] is not part of the middleware's file.  Its
    members are the three classifications of the design document, under
    the names the middleware uses for two of them. *)
Inductive RateLimitType := NOT_LIMITED | CONCURRENT | FIXED_WINDOW.

Definition RateLimitType_eqb (a b : RateLimitType) : bool :=
  match a, b with
  | NOT_LIMITED, NOT_LIMITED | CONCURRENT, CONCURRENT
  | FIXED_WINDOW, FIXED_WINDOW => true
  | _, _ => false
  end.

(** Modelled from the spec: the class [RateLimitMeta] of
    [sentry.types.ratelimit] is not part of the middleware's file.  The
    record has the attributes the middleware reads; the design document's
    [Meta] lists the same ones but for [window], which line 76 reads. *)
Record RateLimitMeta := {
  rate_limit_type : RateLimitType;
  limit : Z;
  window : Z;
  remaining : Z;
  reset_time : Z;
  concurrent_limit : option Z;
  concurrent_remaining : option Z
}.

(** Modelled from the spec: the policy class [RateLimit] is not part of the
    middleware's file; the middleware only hands it to the check. *)
Record RateLimit := {
  rl_limit : Z;
  rl_window : Z;
  rl_concurrent_limit : option Z
}.

(** The values that the request's attributes, the [data] dictionary and the
    response headers hold. *)
Inductive pyval :=
| PyNone
| PyBool (b : bool)
| PyInt (z : Z)
| PyStr (s : string)
| PyMeta (m : RateLimitMeta).

Definition py_of_option_int (o : option Z) : pyval :=
  match o with Some z => PyInt z | None => PyNone end.

(** Python truthiness ([if v:]).  A [RateLimitMeta] is a plain object and is
    always true. *)
Definition truthy (v : pyval) : bool :=
  match v with
  | PyNone => false
  | PyBool b => b
  | PyInt z => negb (z =? 0)
  | PyStr s => negb (String.eqb s "")
  | PyMeta _ => true
  end.

(** The exceptions that are instances of [Exception]: the ones that the two
    handlers, both [except Exception], catch. *)
Inductive exn :=
| KeyError (key : string)
| AttributeError (name : string)
| UnboundLocalError (name : string)
| IndexError
| ValueError (msg : string)
| Failure (what : string).

(** The exceptions that derive from [BaseException] but not from
    [Exception]: [except Exception] lets them through. *)
Inductive base_exn :=
| KeyboardInterrupt
| SystemExit
| GeneratorExit.

(** How a call ends: with a value, by raising an [Exception], or by raising
    an exception that is not one. *)
Inductive outcome (A : Type) :=
| Ok (a : A)
| Raise (e : exn)
| Abort (b : base_exn).
Arguments Ok {A} a.
Arguments Raise {A} e.
Arguments Abort {A} b.

(** ** Strings: [str.split(":", 1)], [str(int)], [str.format] *)

(** [partition_colon s] cuts [s] at its first colon: the text before it and,
    when there is a colon, the text after it. *)
Fixpoint partition_colon (s : string) : string * option string :=
  match s with
  | EmptyString => (EmptyString, None)
  | String c r =>
      if Ascii.eqb c ":"%char then (EmptyString, Some r)
      else let '(h, t) := partition_colon r in (String c h, t)
  end.

(** [s.split(":", 1)]: at most one cut, so one or two pieces. *)
Definition str_split_colon_1 (s : string) : list string :=
  match partition_colon s with
  | (h, None) => [h]
  | (h, Some t) => [h; t]
  end.

(** [str(z)] for a Python [int]. *)
Definition py_str_of_int (z : Z) : string :=
  NilZero.string_of_int (Z.to_int z).

(** [DEFAULT_ERROR_MESSAGE.format(limit=l, window=w)]. *)
Definition DEFAULT_ERROR_MESSAGE_format (l w : Z) : string :=
  "You are attempting to use this endpoint too frequently. Limit is "
  ++ py_str_of_int l ++ " requests in " ++ py_str_of_int w ++ " seconds".

(** [str(m)] for a [RateLimitMeta]: the class is outside the file and the
    text shown is that of a dataclass with the record's fields.  The
    middleware never assigns a [RateLimitMeta] to a header (see
    [meta_headers_plain]), so no run depends on this text. *)
Definition RateLimitMeta_str (m : RateLimitMeta) : string :=
  "RateLimitMeta(rate_limit_type="
  ++ match rate_limit_type m with
     | NOT_LIMITED => "RateLimitType.NOT_LIMITED"
     | CONCURRENT => "RateLimitType.CONCURRENT"
     | FIXED_WINDOW => "RateLimitType.FIXED_WINDOW"
     end
  ++ ", limit=" ++ py_str_of_int (limit m)
  ++ ", window=" ++ py_str_of_int (window m)
  ++ ", remaining=" ++ py_str_of_int (remaining m)
  ++ ", reset_time=" ++ py_str_of_int (reset_time m)
  ++ ", concurrent_limit="
  ++ match concurrent_limit m with
     | Some z => py_str_of_int z | None => "None" end
  ++ ", concurrent_remaining="
  ++ match concurrent_remaining m with
     | Some z => py_str_of_int z | None => "None" end
  ++ ")".

(** [str(v)]. *)
Definition py_str (v : pyval) : string :=
  match v with
  | PyNone => "None"
  | PyBool true => "True"
  | PyBool false => "False"
  | PyInt z => py_str_of_int z
  | PyStr s => s
  | PyMeta m => RateLimitMeta_str m
  end.

(** ** Requests, views, responses *)

Record Request := {
  path : string;
  method : string
}.

(** A view class; [getattr(cls, name, default)] reads [vc_attrs]. *)
Record ViewClass := {
  vc_name : string;
  vc_attrs : gmap string pyval
}.

(** What [resolve(path).func] gives.  A function-based view has no
    [view_class] attribute. *)
Record ViewFunc := {
  view_class : option ViewClass
}.

(** What a response is built from or holds as its body: a Python [dict]
    literal, its entries in the order written, or text. *)
Inductive Content :=
| ContentDict (d : list (string * pyval))
| ContentRaw (body : string).

Record HttpResponse := {
  content : Content;
  status_code : Z;
  headers : gmap string pyval
}.

(** The body that Django's [HttpResponse] makes of its first argument: an
    argument that is iterable and is not text is iterated and its chunks
    joined, and iterating a [dict] gives its keys. *)
Definition HttpResponse_body (c : Content) : string :=
  match c with
  | ContentDict d => String.concat "" (map fst d)
  | ContentRaw body => body
  end.

(** [HttpResponse(content, status=status)], the class of
    [django.http.response] that line 6 imports: the body is
    [HttpResponse_body content], and the new response has the
    [Content-Type] header of Django's default settings and no other. *)
Definition HttpResponse_new (c : Content) (status : Z) : HttpResponse :=
  {| content := ContentRaw (HttpResponse_body c);
     status_code := status;
     headers := {[ "Content-Type" := PyStr "text/html; charset=utf-8" ]} |}.

(** The response after a successful [response[n] = v]: Django stores the
    text [str(v)] of a value that is not text already. *)
Definition set_header (r : HttpResponse) (n : string) (v : pyval)
  : HttpResponse :=
  {| content := content r; status_code := status_code r;
     headers := <[n := PyStr (py_str v)]> (headers r) |}.

(** ** Collaborators *)

(** What the rest of the system does for one request.  [uuid4_hex] is the
    value that [uuid.uuid4().hex] draws.  [setitem_raises] says for which
    header assignments [response[name] = value] raises. *)
Record Env := {
  ENFORCE_CONCURRENT_RATE_LIMITS : bool;
  uuid4_hex : string;
  resolve : string -> outcome ViewFunc;
  get_rate_limit_key : ViewFunc -> Request -> outcome (option string);
  is_RateLimitCategory : string -> bool;
  get_rate_limit_value :
    string -> ViewClass -> string -> outcome (option RateLimit);
  above_rate_limit_check : pyval -> RateLimit -> pyval -> outcome RateLimitMeta;
  finish_request : pyval -> pyval -> outcome unit;
  get_response : Request -> gmap string pyval -> outcome HttpResponse;
  setitem_raises : string -> pyval -> option exn
}.

(** ** State, trace and monad *)

Inductive Event :=
| EvUuid4 (hex : string)
| EvCheck (key : pyval) (rate_limit : RateLimit) (uid : pyval)
| EvFinish (key : pyval) (uid : pyval)
| EvGetResponse
| EvLogException (msg : string) (e : exn).

(** [attrs]: the request object's attributes.  [data]: the local dictionary.
    [response]: the local variable of that name, unbound at first.
    [events]: the calls made so far, oldest first. *)
Record St := {
  attrs : gmap string pyval;
  data : gmap string pyval;
  response : option HttpResponse;
  events : list Event
}.

Definition M (A : Type) : Type := St -> outcome A * St.

Definition ret {A} (a : A) : M A := fun s => (Ok a, s).

Definition raise {A} (e : exn) : M A := fun s => (Raise e, s).

Definition bind {A B} (c : M A) (k : A -> M B) : M B :=
  fun s =>
    match c s with
    | (Ok a, s') => k a s'
    | (Raise e, s') => (Raise e, s')
    | (Abort b, s') => (Abort b, s')
    end.

Definition lift {A} (o : outcome A) : M A := fun s => (o, s).

(** [try: body except Exception as e: handler e].  An exception that is
    not an [Exception] passes through. *)
Definition try_except {A} (body : M A) (handler : exn -> M A) : M A :=
  fun s =>
    match body s with
    | (Ok a, s') => (Ok a, s')
    | (Raise e, s') => handler e s'
    | (Abort b, s') => (Abort b, s')
    end.

Declare Scope py_scope.
Delimit Scope py_scope with py.
Notation "x <- c ;; k" := (bind c (fun x => k))
  (at level 100, c at next level, right associativity) : py_scope.
Notation "c ;; k" := (bind c (fun _ => k))
  (at level 100, right associativity) : py_scope.
Local Open Scope py_scope.

Definition emit (ev : Event) : M unit :=
  fun s =>
    (Ok tt, {| attrs := attrs s; data := data s; response := response s;
               events := events s ++ [ev] |}).

(** [request.name = v] *)
Definition request_setattr (name : string) (v : pyval) : M unit :=
  fun s =>
    (Ok tt, {| attrs := <[name := v]> (attrs s); data := data s;
               response := response s; events := events s |}).

(** [request.name] *)
Definition request_getattr (name : string) : M pyval :=
  fun s =>
    match attrs s !! name with
    | Some v => (Ok v, s)
    | None => (Raise (AttributeError name), s)
    end.

(** [getattr(request, name, dflt)] *)
Definition request_getattr_default (name : string) (dflt : pyval) : M pyval :=
  fun s => (Ok (default dflt (attrs s !! name)), s).

(** [data = {}] *)
Definition data_new : M unit :=
  fun s =>
    (Ok tt, {| attrs := attrs s; data := ∅; response := response s;
               events := events s |}).

(** [data[key] = v] *)
Definition data_setitem (key : string) (v : pyval) : M unit :=
  fun s =>
    (Ok tt, {| attrs := attrs s; data := <[key := v]> (data s);
               response := response s; events := events s |}).

(** [data[key]] *)
Definition data_getitem (key : string) : M pyval :=
  fun s =>
    match data s !! key with
    | Some v => (Ok v, s)
    | None => (Raise (KeyError key), s)
    end.

(** [response = r] *)
Definition response_bind (r : HttpResponse) : M unit :=
  fun s =>
    (Ok tt, {| attrs := attrs s; data := data s; response := Some r;
               events := events s |}).

(** the local variable [response] *)
Definition response_get : M HttpResponse :=
  fun s =>
    match response s with
    | Some r => (Ok r, s)
    | None => (Raise (UnboundLocalError "response"), s)
    end.

(** the attributes of a [RateLimitMeta], read from a Python value *)
Definition meta_attr {A} (name : string) (f : RateLimitMeta -> A) (v : pyval)
  : M A :=
  match v with
  | PyMeta m => ret (f m)
  | _ => raise (AttributeError name)
  end.

(** [v.split(":", 1)] *)
Definition py_split_colon_1 (v : pyval) : M (list string) :=
  match v with
  | PyStr s => ret (str_split_colon_1 s)
  | _ => raise (AttributeError "split")
  end.

(** [l[0]] *)
Definition list_getitem_0 (l : list string) : M string :=
  match l with
  | x :: _ => ret x
  | [] => raise IndexError
  end.

(** [view_func.view_class] *)
Definition getattr_view_class (vf : ViewFunc) : M ViewClass :=
  match view_class vf with
  | Some c => ret c
  | None => raise (AttributeError "view_class")
  end.

(** [getattr(cls, name, dflt)] *)
Definition class_getattr_default (c : ViewClass) (name : string)
    (dflt : pyval) : pyval :=
  default dflt (vc_attrs c !! name).

(** [logging.exception(msg)] inside a handler that caught [e] *)
Definition logging_exception (msg : string) (e : exn) : M unit :=
  emit (EvLogException msg e).

(** Lines 63-67, the conditional expression [rate_limit_cond]: the type is
    compared with [NOT_LIMITED] when the toggle is on and with
    [FIXED_WINDOW] when it is off. *)
Definition rate_limit_cond (enforce_concurrent : bool) (ty : RateLimitType)
  : bool :=
  if enforce_concurrent
  then negb (RateLimitType_eqb ty NOT_LIMITED)
  else RateLimitType_eqb ty FIXED_WINDOW.

(** How the first [try] block ends when nothing is raised: it reaches its
    end, or it executes a [return]. *)
Inductive flow :=
| Fallthrough
| Return (v : option HttpResponse).

Section Middleware.

Variable env : Env.
Variable request : Request.

(** [uuid.uuid4().hex] *)
Definition call_uuid4_hex : M string :=
  emit (EvUuid4 (uuid4_hex env)) ;; ret (uuid4_hex env).

(** [RateLimitCategory(s)]: the member with value [s], or [ValueError]. *)
Definition RateLimitCategory (s : string) : M string :=
  if is_RateLimitCategory env s then ret s
  else raise (ValueError "not a valid RateLimitCategory").

Definition call_above_rate_limit_check (key : pyval) (rl : RateLimit)
    (uid : pyval) : M RateLimitMeta :=
  emit (EvCheck key rl uid) ;; lift (above_rate_limit_check env key rl uid).

Definition call_finish_request (key uid : pyval) : M unit :=
  emit (EvFinish key uid) ;; lift (finish_request env key uid).

(** [self.get_response(request)] *)
Definition call_get_response : M HttpResponse :=
  emit EvGetResponse ;;
  fun s => (get_response env request (attrs s), s).

(** [response[name] = v] *)
Definition response_setitem (name : string) (v : pyval) : M unit :=
  r <- response_get ;;
  match setitem_raises env name v with
  | Some e => raise e
  | None => response_bind (set_header r name v)
  end.

(** Lines 39-80, the body of the first [try]. *)
Definition check_body : M flow :=
  request_setattr "rate_limit_category" PyNone ;;
  rate_limit_uid <- call_uuid4_hex ;;
  view_func <- lift (resolve env (path request)) ;;
  rate_limit_key <- lift (get_rate_limit_key env view_func request) ;;
  match rate_limit_key with
  | None => ret (Return None)
  | Some rate_limit_key =>
    data_setitem "will_be_rate_limited" (PyBool false) ;;
    data_setitem "rate_limit_uid" (PyStr rate_limit_uid) ;;
    data_setitem "rate_limit_key" (PyStr rate_limit_key) ;;
    k <- data_getitem "rate_limit_key" ;;
    parts <- py_split_colon_1 k ;;
    category_str <- list_getitem_0 parts ;;
    request_setattr "rate_limit_category" (PyStr category_str) ;;
    endpoint <- getattr_view_class view_func ;;
    category <- RateLimitCategory category_str ;;
    rate_limit <-
      lift (get_rate_limit_value env (method request) endpoint category) ;;
    match rate_limit with
    | None => ret (Return None)
    | Some rate_limit =>
      k <- data_getitem "rate_limit_key" ;;
      u <- data_getitem "rate_limit_uid" ;;
      meta <- call_above_rate_limit_check k rate_limit u ;;
      request_setattr "rate_limit_metadata" (PyMeta meta) ;;
      md <- request_getattr "rate_limit_metadata" ;;
      ty <- meta_attr "rate_limit_type" rate_limit_type md ;;
      let cond := rate_limit_cond (ENFORCE_CONCURRENT_RATE_LIMITS env) ty in
      if cond then
        data_setitem "will_be_rate_limited" (PyBool true) ;;
        cls <- getattr_view_class view_func ;;
        let enforce_rate_limit :=
          class_getattr_default cls "enforce_rate_limit" (PyBool false) in
        if truthy enforce_rate_limit then
          md <- request_getattr "rate_limit_metadata" ;;
          l <- meta_attr "limit" limit md ;;
          md <- request_getattr "rate_limit_metadata" ;;
          w <- meta_attr "window" window md ;;
          ret (Return (Some (HttpResponse_new
            (ContentDict
               [("detail", PyStr (DEFAULT_ERROR_MESSAGE_format l w))])
            429)))
        else ret Fallthrough
      else ret Fallthrough
    end
  end.

(** Lines 89-102, the body of the second [try]. *)
Definition process_body : M unit :=
  rate_limit_metadata <-
    request_getattr_default "rate_limit_metadata" PyNone ;;
  (if truthy rate_limit_metadata then
     v <- meta_attr "remaining" remaining rate_limit_metadata ;;
     response_setitem "X-Sentry-Rate-Limit-Remaining" (PyInt v) ;;
     v <- meta_attr "limit" limit rate_limit_metadata ;;
     response_setitem "X-Sentry-Rate-Limit-Limit" (PyInt v) ;;
     v <- meta_attr "reset_time" reset_time rate_limit_metadata ;;
     response_setitem "X-Sentry-Rate-Limit-Reset" (PyInt v) ;;
     v <- meta_attr "concurrent_remaining" concurrent_remaining
            rate_limit_metadata ;;
     response_setitem "X-Sentry-Rate-Limit-ConcurrentRemaining"
       (py_of_option_int v) ;;
     v <- meta_attr "concurrent_limit" concurrent_limit
            rate_limit_metadata ;;
     response_setitem "X-Sentry-Rate-Limit-ConcurrentLimit"
       (py_of_option_int v)
   else ret tt) ;;
  k <- data_getitem "rate_limit_key" ;;
  u <- data_getitem "rate_limit_uid" ;;
  call_finish_request k u.

(** Lines 38-82, the first [try] statement with its handler: an exception
    of the body is logged and the middleware goes on to the endpoint. *)
Definition check_phase : M flow :=
  try_except check_body
    (fun e =>
       logging_exception
         "Error during rate limiting, failing open. THIS SHOULD NOT HAPPEN"
         e ;;
       ret Fallthrough).

(** Lines 88-105, the second [try] statement with its handler, and the
    final [return response]. *)
Definition process_response : M (option HttpResponse) :=
  try_except process_body
    (fun e => logging_exception "COULD NOT POPULATE RATE LIMIT HEADERS" e) ;;
  r <- response_get ;;
  ret (Some r).

(** [RatelimitMiddleware.__call__], lines 34-105. *)
Definition __call__ : M (option HttpResponse) :=
  data_new ;;
  fl <- check_phase ;;
  match fl with
  | Return v => ret v
  | Fallthrough =>
      r <- call_get_response ;;
      response_bind r ;;
      process_response
  end.

End Middleware.

(** The state in which the middleware receives a request whose attributes
    are [a]. *)
Definition start (a : gmap string pyval) : St :=
  {| attrs := a; data := ∅; response := None; events := [] |}.

(** One run of the middleware. *)
Definition run (env : Env) (request : Request) (a : gmap string pyval)
  : outcome (option HttpResponse) * St :=
  __call__ env request (start a).

(** ** The paths through the first [try] block

    The definitions below describe, in closed form, the states that the
    middleware can be in after [check_body]; the lemmas of the next part
    show that [check_body] reaches exactly these. *)

(** [key.split(":", 1)[0]] *)
Definition category_of (key : string) : string := fst (partition_colon key).

(** The request id as the value stored in [data]. *)
Definition uid_of (env : Env) : pyval := PyStr (uuid4_hex env).

(** The request's attributes after line 39, after line 49, after line 59. *)
Definition attrs_init (a : gmap string pyval) : gmap string pyval :=
  <["rate_limit_category" := PyNone]> a.

Definition attrs_cat (a : gmap string pyval) (key : string)
  : gmap string pyval :=
  <["rate_limit_category" := PyStr (category_of key)]> (attrs_init a).

Definition attrs_meta (a : gmap string pyval) (key : string)
    (m : RateLimitMeta) : gmap string pyval :=
  <["rate_limit_metadata" := PyMeta m]> (attrs_cat a key).

(** The dictionary [data] after line 47, and after line 69. *)
Definition data_keyed (env : Env) (key : string) : gmap string pyval :=
  <["rate_limit_key" := PyStr key]>
    (<["rate_limit_uid" := uid_of env]>
       (<["will_be_rate_limited" := PyBool false]> ∅)).

Definition data_marked (env : Env) (key : string) : gmap string pyval :=
  <["will_be_rate_limited" := PyBool true]> (data_keyed env key).

Definition mk (a d : gmap string pyval) (evs : list Event) : St :=
  {| attrs := a; data := d; response := None; events := evs |}.

(** Key resolution gives [key]; policy lookup gives [rl]. *)
Definition key_resolves (env : Env) (req : Request) (vf : ViewFunc)
    (key : string) : Prop :=
  resolve env (path req) = Ok vf /\
  get_rate_limit_key env vf req = Ok (Some key).

Definition policy_resolves (env : Env) (req : Request) (vf : ViewFunc)
    (key : string) (cls : ViewClass) (rl : RateLimit) : Prop :=
  key_resolves env req vf key /\
  view_class vf = Some cls /\
  is_RateLimitCategory env (category_of key) = true /\
  get_rate_limit_value env (method req) cls (category_of key) = Ok (Some rl).

(** The response of lines 72-80. *)
Definition too_many_requests (m : RateLimitMeta) : HttpResponse :=
  HttpResponse_new
    (ContentDict
       [("detail",
         PyStr (DEFAULT_ERROR_MESSAGE_format (limit m) (window m)))])
    429.

(** One constructor per way through lines 39-80: how the block ends and the
    state it leaves. *)
Inductive check_path (env : Env) (req : Request) (a : gmap string pyval)
  : outcome flow -> St -> Prop :=
| path_resolve_raises e :
    resolve env (path req) = Raise e ->
    check_path env req a (Raise e)
      (mk (attrs_init a) ∅ [EvUuid4 (uuid4_hex env)])
| path_key_raises vf e :
    resolve env (path req) = Ok vf ->
    get_rate_limit_key env vf req = Raise e ->
    check_path env req a (Raise e)
      (mk (attrs_init a) ∅ [EvUuid4 (uuid4_hex env)])
| path_key_absent vf :
    resolve env (path req) = Ok vf ->
    get_rate_limit_key env vf req = Ok None ->
    check_path env req a (Ok (Return None))
      (mk (attrs_init a) ∅ [EvUuid4 (uuid4_hex env)])
| path_no_view_class vf key :
    key_resolves env req vf key ->
    view_class vf = None ->
    check_path env req a (Raise (AttributeError "view_class"))
      (mk (attrs_cat a key) (data_keyed env key) [EvUuid4 (uuid4_hex env)])
| path_bad_category vf key cls :
    key_resolves env req vf key ->
    view_class vf = Some cls ->
    is_RateLimitCategory env (category_of key) = false ->
    check_path env req a (Raise (ValueError "not a valid RateLimitCategory"))
      (mk (attrs_cat a key) (data_keyed env key) [EvUuid4 (uuid4_hex env)])
| path_policy_raises vf key cls e :
    key_resolves env req vf key ->
    view_class vf = Some cls ->
    is_RateLimitCategory env (category_of key) = true ->
    get_rate_limit_value env (method req) cls (category_of key) = Raise e ->
    check_path env req a (Raise e)
      (mk (attrs_cat a key) (data_keyed env key) [EvUuid4 (uuid4_hex env)])
| path_policy_absent vf key cls :
    key_resolves env req vf key ->
    view_class vf = Some cls ->
    is_RateLimitCategory env (category_of key) = true ->
    get_rate_limit_value env (method req) cls (category_of key) = Ok None ->
    check_path env req a (Ok (Return None))
      (mk (attrs_cat a key) (data_keyed env key) [EvUuid4 (uuid4_hex env)])
| path_check_raises vf key cls rl e :
    policy_resolves env req vf key cls rl ->
    above_rate_limit_check env (PyStr key) rl (uid_of env) = Raise e ->
    check_path env req a (Raise e)
      (mk (attrs_cat a key) (data_keyed env key)
         [EvUuid4 (uuid4_hex env); EvCheck (PyStr key) rl (uid_of env)])
| path_passed vf key cls rl m :
    policy_resolves env req vf key cls rl ->
    above_rate_limit_check env (PyStr key) rl (uid_of env) = Ok m ->
    rate_limit_cond (ENFORCE_CONCURRENT_RATE_LIMITS env) (rate_limit_type m)
      = false ->
    check_path env req a (Ok Fallthrough)
      (mk (attrs_meta a key m) (data_keyed env key)
         [EvUuid4 (uuid4_hex env); EvCheck (PyStr key) rl (uid_of env)])
| path_marked vf key cls rl m :
    policy_resolves env req vf key cls rl ->
    above_rate_limit_check env (PyStr key) rl (uid_of env) = Ok m ->
    rate_limit_cond (ENFORCE_CONCURRENT_RATE_LIMITS env) (rate_limit_type m)
      = true ->
    truthy (class_getattr_default cls "enforce_rate_limit" (PyBool false))
      = false ->
    check_path env req a (Ok Fallthrough)
      (mk (attrs_meta a key m) (data_marked env key)
         [EvUuid4 (uuid4_hex env); EvCheck (PyStr key) rl (uid_of env)])
| path_rejected vf key cls rl m :
    policy_resolves env req vf key cls rl ->
    above_rate_limit_check env (PyStr key) rl (uid_of env) = Ok m ->
    rate_limit_cond (ENFORCE_CONCURRENT_RATE_LIMITS env) (rate_limit_type m)
      = true ->
    truthy (class_getattr_default cls "enforce_rate_limit" (PyBool false))
      = true ->
    check_path env req a (Ok (Return (Some (too_many_requests m))))
      (mk (attrs_meta a key m) (data_marked env key)
         [EvUuid4 (uuid4_hex env); EvCheck (PyStr key) rl (uid_of env)])
| path_resolve_aborts b :
    resolve env (path req) = Abort b ->
    check_path env req a (Abort b)
      (mk (attrs_init a) ∅ [EvUuid4 (uuid4_hex env)])
| path_key_aborts vf b :
    resolve env (path req) = Ok vf ->
    get_rate_limit_key env vf req = Abort b ->
    check_path env req a (Abort b)
      (mk (attrs_init a) ∅ [EvUuid4 (uuid4_hex env)])
| path_policy_aborts vf key cls b :
    key_resolves env req vf key ->
    view_class vf = Some cls ->
    is_RateLimitCategory env (category_of key) = true ->
    get_rate_limit_value env (method req) cls (category_of key) = Abort b ->
    check_path env req a (Abort b)
      (mk (attrs_cat a key) (data_keyed env key) [EvUuid4 (uuid4_hex env)])
| path_check_aborts vf key cls rl b :
    policy_resolves env req vf key cls rl ->
    above_rate_limit_check env (PyStr key) rl (uid_of env) = Abort b ->
    check_path env req a (Abort b)
      (mk (attrs_cat a key) (data_keyed env key)
         [EvUuid4 (uuid4_hex env); EvCheck (PyStr key) rl (uid_of env)]).

(** ** The second [try] block in closed form *)

(** The five assignments of lines 93-101, in the order of the source. *)
Definition meta_headers (m : RateLimitMeta) : list (string * pyval) :=
  [ ("X-Sentry-Rate-Limit-Remaining", PyInt (remaining m));
    ("X-Sentry-Rate-Limit-Limit", PyInt (limit m));
    ("X-Sentry-Rate-Limit-Reset", PyInt (reset_time m));
    ("X-Sentry-Rate-Limit-ConcurrentRemaining",
     py_of_option_int (concurrent_remaining m));
    ("X-Sentry-Rate-Limit-ConcurrentLimit",
     py_of_option_int (concurrent_limit m)) ].

Definition header_names : list string :=
  [ "X-Sentry-Rate-Limit-Remaining"; "X-Sentry-Rate-Limit-Limit";
    "X-Sentry-Rate-Limit-Reset"; "X-Sentry-Rate-Limit-ConcurrentRemaining";
    "X-Sentry-Rate-Limit-ConcurrentLimit" ].

(** Assignments one after the other; the first that raises stops the rest
    and leaves the response with the headers set so far. *)
Fixpoint assign_headers (env : Env) (hs : list (string * pyval))
    (r : HttpResponse) : option exn * HttpResponse :=
  match hs with
  | [] => (None, r)
  | (n, v) :: hs' =>
      match setitem_raises env n v with
      | Some e => (Some e, r)
      | None => assign_headers env hs' (set_header r n v)
      end
  end.

(** Lines 92-101 on the value [md] that [getattr] gave. *)
Definition populate (env : Env) (md : pyval) (r : HttpResponse)
  : option exn * HttpResponse :=
  if truthy md then
    match md with
    | PyMeta m => assign_headers env (meta_headers m) r
    | _ => (Some (AttributeError "remaining"), r)
    end
  else (None, r).

(** Line 102 on the dictionary [d]: how it ends, and the call it makes, if
    any. *)
Definition release (env : Env) (d : gmap string pyval)
  : outcome unit * list Event :=
  match d !! "rate_limit_key" with
  | None => (Raise (KeyError "rate_limit_key"), [])
  | Some k =>
      match d !! "rate_limit_uid" with
      | None => (Raise (KeyError "rate_limit_uid"), [])
      | Some u => (finish_request env k u, [EvFinish k u])
      end
  end.

Definition MSG_FAIL_OPEN : string :=
  "Error during rate limiting, failing open. THIS SHOULD NOT HAPPEN".

Definition MSG_HEADERS : string := "COULD NOT POPULATE RATE LIMIT HEADERS".

(** What the first handler logs. *)
Definition fail_open_log (o : outcome flow) : list Event :=
  match o with
  | Raise e => [EvLogException MSG_FAIL_OPEN e]
  | _ => []
  end.

(** The response that line 105 returns when the endpoint gave [r]. *)
Definition populated (env : Env) (a : gmap string pyval) (r : HttpResponse)
  : HttpResponse :=
  snd (populate env (default PyNone (a !! "rate_limit_metadata")) r).

(** The events of lines 88-104. *)
Definition process_trace (env : Env) (a d : gmap string pyval)
    (r : HttpResponse) : list Event :=
  match fst (populate env (default PyNone (a !! "rate_limit_metadata")) r) with
  | Some e => [EvLogException MSG_HEADERS e]
  | None =>
      match release env d with
      | (Raise e, fin) => fin ++ [EvLogException MSG_HEADERS e]
      | (_, fin) => fin
      end
  end.

(** How lines 88-105 end when the endpoint gave [r]: with the response,
    unless the release raises an exception that is not an [Exception]. *)
Definition process_result (env : Env) (a d : gmap string pyval)
    (r : HttpResponse) : outcome (option HttpResponse) :=
  match fst (populate env (default PyNone (a !! "rate_limit_metadata")) r) with
  | Some _ => Ok (Some (populated env a r))
  | None =>
      match fst (release env d) with
      | Abort b => Abort b
      | _ => Ok (Some (populated env a r))
      end
  end.

(** Lines 81-105 after the first [try] block ended with [o] in state [s1]
    without returning. *)
Definition after_check (env : Env) (req : Request) (o : outcome flow)
    (s1 : St) : outcome (option HttpResponse) * St :=
  match get_response env req (attrs s1) with
  | Raise e =>
      (Raise e,
       {| attrs := attrs s1; data := data s1; response := None;
          events := events s1 ++ fail_open_log o ++ [EvGetResponse] |})
  | Abort b =>
      (Abort b,
       {| attrs := attrs s1; data := data s1; response := None;
          events := events s1 ++ fail_open_log o ++ [EvGetResponse] |})
  | Ok r =>
      (process_result env (attrs s1) (data s1) r,
       {| attrs := attrs s1; data := data s1;
          response := Some (populated env (attrs s1) r);
          events := events s1 ++ fail_open_log o ++ [EvGetResponse]
                    ++ process_trace env (attrs s1) (data s1) r |})
  end.

(** The events that follow those of the first [try] block. *)
Definition tail_events (env : Env) (req : Request) (o : outcome flow)
    (s1 : St) : list Event :=
  match o with
  | Ok (Return _) | Abort _ => []
  | _ =>
      fail_open_log o ++ [EvGetResponse] ++
      match get_response env req (attrs s1) with
      | Ok r => process_trace env (attrs s1) (data s1) r
      | _ => []
      end
  end.

(** The events that the second [try] statement can leave. *)
Definition is_release (d : gmap string pyval) (ev : Event) : Prop :=
  match ev with
  | EvFinish k u =>
      d !! "rate_limit_key" = Some k /\ d !! "rate_limit_uid" = Some u
  | EvLogException msg _ => msg = MSG_HEADERS
  | _ => False
  end.

(** ** Example requests and collaborators *)

Definition request_example : Request :=
  {| path := "/api/0/organizations/"; method := "GET" |}.

Definition key_example : string :=
  "ip:OrganizationIndexEndpoint:GET:203.0.113.7".

Definition endpoint_example (enforce : bool) : ViewClass :=
  {| vc_name := "OrganizationIndexEndpoint";
     vc_attrs := {[ "enforce_rate_limit" := PyBool enforce ]} |}.

Definition view_example (enforce : bool) : ViewFunc :=
  {| view_class := Some (endpoint_example enforce) |}.

Definition policy_example : RateLimit :=
  {| rl_limit := 10; rl_window := 60; rl_concurrent_limit := Some 2 |}.

Definition meta_example (ty : RateLimitType) : RateLimitMeta :=
  {| rate_limit_type := ty; limit := 10; window := 60; remaining := 0;
     reset_time := 1700000060; concurrent_limit := Some 2;
     concurrent_remaining := Some 1 |}.

Definition response_example : HttpResponse :=
  {| content := ContentRaw "[]"; status_code := 200;
     headers := {[ "Content-Type" := PyStr "application/json" ]} |}.

(** Every collaborator succeeds: the key and the policy resolve, the check
    classifies the request as [ty], the endpoint answers 200. *)
Definition env_example (toggle : bool) (ty : RateLimitType) (enforce : bool)
  : Env :=
  {| ENFORCE_CONCURRENT_RATE_LIMITS := toggle;
     uuid4_hex := "9f1c2b7e4d3a4c5e8b6f0a1d2e3f4a5b";
     resolve := fun _ => Ok (view_example enforce);
     get_rate_limit_key := fun _ _ => Ok (Some key_example);
     is_RateLimitCategory :=
       fun s => String.eqb s "ip" || String.eqb s "user" || String.eqb s "org";
     get_rate_limit_value := fun _ _ _ => Ok (Some policy_example);
     above_rate_limit_check := fun _ _ _ => Ok (meta_example ty);
     finish_request := fun _ _ => Ok tt;
     get_response := fun _ _ => Ok response_example;
     setitem_raises := fun _ _ => None |}.

Definition with_key (env : Env) (k : outcome (option string)) : Env :=
  {| ENFORCE_CONCURRENT_RATE_LIMITS := ENFORCE_CONCURRENT_RATE_LIMITS env;
     uuid4_hex := uuid4_hex env;
     resolve := resolve env;
     get_rate_limit_key := fun _ _ => k;
     is_RateLimitCategory := is_RateLimitCategory env;
     get_rate_limit_value := get_rate_limit_value env;
     above_rate_limit_check := above_rate_limit_check env;
     finish_request := finish_request env;
     get_response := get_response env;
     setitem_raises := setitem_raises env |}.

Definition with_policy (env : Env) (p : outcome (option RateLimit)) : Env :=
  {| ENFORCE_CONCURRENT_RATE_LIMITS := ENFORCE_CONCURRENT_RATE_LIMITS env;
     uuid4_hex := uuid4_hex env;
     resolve := resolve env;
     get_rate_limit_key := get_rate_limit_key env;
     is_RateLimitCategory := is_RateLimitCategory env;
     get_rate_limit_value := fun _ _ _ => p;
     above_rate_limit_check := above_rate_limit_check env;
     finish_request := finish_request env;
     get_response := get_response env;
     setitem_raises := setitem_raises env |}.

Definition with_check (env : Env) (c : outcome RateLimitMeta) : Env :=
  {| ENFORCE_CONCURRENT_RATE_LIMITS := ENFORCE_CONCURRENT_RATE_LIMITS env;
     uuid4_hex := uuid4_hex env;
     resolve := resolve env;
     get_rate_limit_key := get_rate_limit_key env;
     is_RateLimitCategory := is_RateLimitCategory env;
     get_rate_limit_value := get_rate_limit_value env;
     above_rate_limit_check := fun _ _ _ => c;
     finish_request := finish_request env;
     get_response := get_response env;
     setitem_raises := setitem_raises env |}.

Definition with_setitem (env : Env) (f : string -> pyval -> option exn)
  : Env :=
  {| ENFORCE_CONCURRENT_RATE_LIMITS := ENFORCE_CONCURRENT_RATE_LIMITS env;
     uuid4_hex := uuid4_hex env;
     resolve := resolve env;
     get_rate_limit_key := get_rate_limit_key env;
     is_RateLimitCategory := is_RateLimitCategory env;
     get_rate_limit_value := get_rate_limit_value env;
     above_rate_limit_check := above_rate_limit_check env;
     finish_request := finish_request env;
     get_response := get_response env;
     setitem_raises := f |}.

(** The endpoint has no rate-limit key; the endpoint has no configured
    limit; the store times out; one header assignment is refused. *)
Definition env_no_key : Env :=
  with_key (env_example false NOT_LIMITED false) (Ok None).

Definition env_no_policy : Env :=
  with_policy (env_example false NOT_LIMITED false) (Ok None).

Definition env_store_down : Env :=
  with_check (env_example false NOT_LIMITED true)
    (Raise (Failure "redis timeout")).

Definition env_bad_header : Env :=
  with_setitem (env_example false NOT_LIMITED false)
    (fun n _ =>
       if String.eqb n "X-Sentry-Rate-Limit-Reset"
       then Some (Failure "BadHeaderError") else None).


(** The attributes of a request that arrives with a [rate_limit_metadata] attribute already
    set. *)
Definition attrs_stale : gmap string pyval :=
  {[ "rate_limit_metadata" := PyMeta (meta_example NOT_LIMITED) ]}.

(** ** Further collaborators and trace predicates *)

(** [env] with another endpoint, release, URL resolver. *)
Definition with_endpoint (env : Env) (o : outcome HttpResponse) : Env :=
  {| ENFORCE_CONCURRENT_RATE_LIMITS := ENFORCE_CONCURRENT_RATE_LIMITS env;
     uuid4_hex := uuid4_hex env;
     resolve := resolve env;
     get_rate_limit_key := get_rate_limit_key env;
     is_RateLimitCategory := is_RateLimitCategory env;
     get_rate_limit_value := get_rate_limit_value env;
     above_rate_limit_check := above_rate_limit_check env;
     finish_request := finish_request env;
     get_response := fun _ _ => o;
     setitem_raises := setitem_raises env |}.

Definition with_finish (env : Env) (o : outcome unit) : Env :=
  {| ENFORCE_CONCURRENT_RATE_LIMITS := ENFORCE_CONCURRENT_RATE_LIMITS env;
     uuid4_hex := uuid4_hex env;
     resolve := resolve env;
     get_rate_limit_key := get_rate_limit_key env;
     is_RateLimitCategory := is_RateLimitCategory env;
     get_rate_limit_value := get_rate_limit_value env;
     above_rate_limit_check := above_rate_limit_check env;
     finish_request := fun _ _ => o;
     get_response := get_response env;
     setitem_raises := setitem_raises env |}.

Definition with_resolve (env : Env) (o : outcome ViewFunc) : Env :=
  {| ENFORCE_CONCURRENT_RATE_LIMITS := ENFORCE_CONCURRENT_RATE_LIMITS env;
     uuid4_hex := uuid4_hex env;
     resolve := fun _ => o;
     get_rate_limit_key := get_rate_limit_key env;
     is_RateLimitCategory := is_RateLimitCategory env;
     get_rate_limit_value := get_rate_limit_value env;
     above_rate_limit_check := above_rate_limit_check env;
     finish_request := finish_request env;
     get_response := get_response env;
     setitem_raises := setitem_raises env |}.

(** The endpoint raises; URL resolution raises; policy lookup raises; the
    release raises. *)
Definition env_endpoint_raises : Env :=
  with_endpoint (env_example false NOT_LIMITED false)
    (Raise (Failure "endpoint error")).

Definition env_resolve_raises : Env :=
  with_resolve (env_example false NOT_LIMITED false)
    (Raise (Failure "Resolver404")).

Definition env_policy_raises : Env :=
  with_policy (env_example false NOT_LIMITED false)
    (Raise (Failure "bad rate limit config")).

Definition env_finish_raises : Env :=
  with_finish (env_example false NOT_LIMITED false)
    (Raise (Failure "redis timeout")).


(** The three calls to collaborators that a trace is searched for. *)
Definition is_check_event (ev : Event) : bool :=
  match ev with EvCheck _ _ _ => true | _ => false end.
Definition is_finish_event (ev : Event) : bool :=
  match ev with EvFinish _ _ => true | _ => false end.
Definition is_endpoint_event (ev : Event) : bool :=
  match ev with EvGetResponse => true | _ => false end.

(** The events that can precede the endpoint call. *)
Definition is_before_endpoint (ev : Event) : Prop :=
  match ev with
  | EvUuid4 _ | EvCheck _ _ _ => True
  | EvLogException msg _ => msg = MSG_FAIL_OPEN
  | _ => False
  end.

(** The response after the assignments [hs], none of which raises. *)
Definition assign_all (hs : list (string * pyval)) (r : HttpResponse)
  : HttpResponse :=
  fold_left (fun r nv => set_header r (fst nv) (snd nv)) hs r.

(** * Proofs *)

(** ** Running the monad step by step *)

Lemma bind_run {A B} (c : M A) (k : A -> M B) (s : St) :
  bind c k s =
  match c s with
  | (Ok x, s') => k x s'
  | (Raise e, s') => (Raise e, s')
  | (Abort b, s') => (Abort b, s')
  end.
Proof. reflexivity. Qed.

Ltac py_cbn :=
  cbn [bind ret raise lift try_except emit request_setattr request_getattr
       request_getattr_default data_new data_setitem data_getitem
       response_bind response_get meta_attr py_split_colon_1
       attrs data response events fst snd app].

Ltac py_maps :=
  repeat first
    [ rewrite lookup_insert_eq
    | rewrite lookup_insert_ne by done
    | rewrite lookup_empty ].

Ltac py_go :=
  repeat first
    [ rewrite bind_run | progress py_cbn | progress py_maps
    | progress unfold data_getitem, request_getattr, response_get ].

(** Unpacks the premises of a [check_path] constructor. *)
Ltac path_facts :=
  unfold policy_resolves, key_resolves, uid_of in *; destruct_and?;
  cbn [mk attrs data events response In] in *.

(** Two hypotheses give the result of the same check: one [Meta]. *)
Ltac same_meta m :=
  match goal with
  | H : above_rate_limit_check _ _ _ _ = Ok ?m' |- _ =>
      assert (m' = m) as -> by congruence
  end.

Lemma split_head (key : string) :
  list_getitem_0 (str_split_colon_1 key) = ret (category_of key).
Proof.
  unfold str_split_colon_1, category_of.
  destruct (partition_colon key) as [h [t|]]; reflexivity.
Qed.

(** ** The first [try] block follows one of the paths *)

Lemma check_body_path env req a :
  check_path env req a (fst (check_body env req (start a)))
                       (snd (check_body env req (start a))).
Proof.
  unfold check_body, start, call_uuid4_hex. py_go.
  destruct (resolve env (path req)) as [vf|e|b] eqn:Hres; py_go;
    [|by apply path_resolve_raises|by apply path_resolve_aborts].
  destruct (get_rate_limit_key env vf req) as [[key|]|e|b] eqn:Hkey; py_go;
    [ | by eapply path_key_absent | by eapply path_key_raises
      | by eapply path_key_aborts ].
  assert (Hk : key_resolves env req vf key) by done.
  rewrite split_head. py_go.
  unfold getattr_view_class.
  destruct (view_class vf) as [cls|] eqn:Hcls; py_go;
    [|by eapply path_no_view_class].
  unfold RateLimitCategory.
  destruct (is_RateLimitCategory env (category_of key)) eqn:Hcat; py_go;
    [|by eapply path_bad_category].
  destruct (get_rate_limit_value env (method req) cls (category_of key))
    as [[rl|]|e|b] eqn:Hval; py_go;
    [ | by eapply path_policy_absent | by eapply path_policy_raises
      | by eapply path_policy_aborts ].
  assert (Hp : policy_resolves env req vf key cls rl) by done.
  unfold call_above_rate_limit_check. py_go.
  destruct (above_rate_limit_check env (PyStr key) rl (PyStr (uuid4_hex env)))
    as [m|e|b] eqn:Hchk; py_go;
    [|by eapply path_check_raises|by eapply path_check_aborts].
  destruct (rate_limit_cond _ _) eqn:Hcond; py_go;
    [|by eapply path_passed].
  destruct (truthy _) eqn:Henf; py_go;
    [ by eapply path_rejected | by eapply path_marked ].
Qed.

Lemma check_path_response env req a o s1 :
  check_path env req a o s1 -> response s1 = None.
Proof. by destruct 1. Qed.

Lemma check_path_attrs_frame env req a o s1 n :
  check_path env req a o s1 ->
  n <> "rate_limit_category" -> n <> "rate_limit_metadata" ->
  attrs s1 !! n = a !! n.
Proof.
  intros P Hc Hm.
  destruct P; cbn [mk attrs]; unfold attrs_meta, attrs_cat, attrs_init;
    by rewrite !lookup_insert_ne by done.
Qed.

Lemma data_keyed_key env key :
  data_keyed env key !! "rate_limit_key" = Some (PyStr key).
Proof. unfold data_keyed. by py_maps. Qed.

Lemma data_keyed_uid env key :
  data_keyed env key !! "rate_limit_uid" = Some (uid_of env).
Proof. unfold data_keyed. by py_maps. Qed.

Lemma data_keyed_flag env key :
  data_keyed env key !! "will_be_rate_limited" = Some (PyBool false).
Proof. unfold data_keyed. by py_maps. Qed.

Lemma data_marked_key env key :
  data_marked env key !! "rate_limit_key" = Some (PyStr key).
Proof. unfold data_marked. py_maps. apply data_keyed_key. Qed.

Lemma data_marked_uid env key :
  data_marked env key !! "rate_limit_uid" = Some (uid_of env).
Proof. unfold data_marked. py_maps. apply data_keyed_uid. Qed.

Lemma data_marked_flag env key :
  data_marked env key !! "will_be_rate_limited" = Some (PyBool true).
Proof. unfold data_marked. by py_maps. Qed.

Lemma check_path_events env req a o s1 :
  check_path env req a o s1 ->
  events s1 = [EvUuid4 (uuid4_hex env)] \/
  exists key rl,
    events s1 = [EvUuid4 (uuid4_hex env); EvCheck (PyStr key) rl (uid_of env)]
    /\ data s1 !! "rate_limit_key" = Some (PyStr key)
    /\ data s1 !! "rate_limit_uid" = Some (uid_of env).
Proof.
  destruct 1; cbn [mk events data]; first
    [ by left
    | right; eexists _, _; split; [reflexivity|];
      rewrite ?data_keyed_key, ?data_keyed_uid, ?data_marked_key,
        ?data_marked_uid; done ].
Qed.

(** ** Header assignment, by induction on the list of headers *)

Lemma meta_headers_names m : map fst (meta_headers m) = header_names.
Proof. reflexivity. Qed.

(** The values assigned to the headers are numbers or [None]. *)
Lemma meta_headers_plain m n v :
  In (n, v) (meta_headers m) -> (exists z, v = PyInt z) \/ v = PyNone.
Proof.
  cbn [meta_headers In]. unfold py_of_option_int.
  intros [H|[H|[H|[H|[H|[]]]]]]; injection H as <- <-; eauto;
    [destruct (concurrent_remaining m)|destruct (concurrent_limit m)]; eauto.
Qed.

Lemma header_names_NoDup : List.NoDup header_names.
Proof.
  unfold header_names.
  repeat (constructor; [cbn [In]; intuition discriminate|]). constructor.
Qed.

Section AssignHeaders.

Variable env : Env.

Lemma assign_headers_body hs : forall r,
  status_code (snd (assign_headers env hs r)) = status_code r /\
  content (snd (assign_headers env hs r)) = content r.
Proof.
  induction hs as [|[n v] hs IH]; intros r; cbn [assign_headers]; [done|].
  destruct (setitem_raises env n v); [done|]. apply (IH (set_header r n v)).
Qed.

Lemma assign_headers_frame hs : forall r n,
  ~ In n (map fst hs) ->
  headers (snd (assign_headers env hs r)) !! n = headers r !! n.
Proof.
  induction hs as [|[n' v] hs IH]; intros r n Hn; cbn [assign_headers]; [done|].
  cbn [map fst In] in Hn.
  destruct (setitem_raises env n' v); [done|].
  rewrite IH by tauto. cbn [set_header headers].
  apply lookup_insert_ne. tauto.
Qed.

Lemma assign_headers_all hs : forall r,
  (forall n v, In (n, v) hs -> setitem_raises env n v = None) ->
  List.NoDup (map fst hs) ->
  fst (assign_headers env hs r) = None /\
  forall n v, In (n, v) hs ->
    headers (snd (assign_headers env hs r)) !! n = Some (PyStr (py_str v)).
Proof.
  induction hs as [|[n' v'] hs IH]; intros r Hok Hnd; cbn [assign_headers].
  - split; [done|]. intros n v [].
  - rewrite (Hok n' v') by (left; done).
    inversion Hnd as [|x l Hnotin Hnd']; subst.
    destruct (IH (set_header r n' v')) as [Hfst Hall];
      [intros; apply Hok; right; done | done |].
    split; [done|]. intros n v [Heq|Hin].
    + inversion Heq; subst. rewrite assign_headers_frame by done.
      cbn [set_header headers]. apply lookup_insert_eq.
    + by apply Hall.
Qed.

Lemma populate_body md r :
  status_code (snd (populate env md r)) = status_code r /\
  content (snd (populate env md r)) = content r.
Proof.
  unfold populate. destruct (truthy md); [|done].
  destruct md; try done. apply assign_headers_body.
Qed.

Lemma populate_frame md r n :
  ~ In n header_names ->
  headers (snd (populate env md r)) !! n = headers r !! n.
Proof.
  intros Hn. unfold populate. destruct (truthy md); [|done].
  destruct md; try done. by apply assign_headers_frame.
Qed.

Lemma populate_meta m r :
  (forall n v, setitem_raises env n v = None) ->
  fst (populate env (PyMeta m) r) = None /\
  forall n v, In (n, v) (meta_headers m) ->
    headers (snd (populate env (PyMeta m) r)) !! n = Some (PyStr (py_str v)).
Proof.
  intros Hok. cbn [populate truthy].
  apply assign_headers_all; [auto|].
  rewrite meta_headers_names. apply header_names_NoDup.
Qed.

Lemma populated_body a r :
  status_code (populated env a r) = status_code r /\
  content (populated env a r) = content r.
Proof. apply populate_body. Qed.

Lemma populated_frame a r n :
  ~ In n header_names ->
  headers (populated env a r) !! n = headers r !! n.
Proof. apply populate_frame. Qed.

End AssignHeaders.

(** ** The second [try] block equals its closed form *)

Lemma response_setitem_run env n v a d r evs :
  response_setitem env n v
    {| attrs := a; data := d; response := Some r; events := evs |} =
  match setitem_raises env n v with
  | Some e =>
      (Raise e, {| attrs := a; data := d; response := Some r; events := evs |})
  | None =>
      (Ok tt, {| attrs := a; data := d; response := Some (set_header r n v);
                 events := evs |})
  end.
Proof.
  unfold response_setitem. py_go. by destruct (setitem_raises env n v).
Qed.

Lemma release_run env a d r evs :
  (k <- data_getitem "rate_limit_key" ;;
   u <- data_getitem "rate_limit_uid" ;;
   call_finish_request env k u)%py
    {| attrs := a; data := d; response := r; events := evs |} =
  (fst (release env d),
   {| attrs := a; data := d; response := r;
      events := evs ++ snd (release env d) |}).
Proof.
  unfold release, call_finish_request, lift. py_go.
  destruct (d !! "rate_limit_key") as [k|]; py_go; [|by rewrite app_nil_r].
  destruct (d !! "rate_limit_uid") as [u|]; py_go; [|by rewrite app_nil_r].
  reflexivity.
Qed.

Lemma process_body_run env a d r evs :
  process_body env
    {| attrs := a; data := d; response := Some r; events := evs |} =
  match populate env (default PyNone (a !! "rate_limit_metadata")) r with
  | (Some e, r') =>
      (Raise e,
       {| attrs := a; data := d; response := Some r'; events := evs |})
  | (None, r') =>
      (fst (release env d),
       {| attrs := a; data := d; response := Some r';
          events := evs ++ snd (release env d) |})
  end.
Proof.
  unfold process_body, populate.
  rewrite bind_run. cbn [request_getattr_default attrs].
  destruct (default PyNone (a !! "rate_limit_metadata")) as [|b|z|s|m];
    cbn [truthy meta_attr].
  - rewrite bind_run. cbn [ret]. apply release_run.
  - destruct b; rewrite bind_run; py_go; [done|apply release_run].
  - destruct (negb (z =? 0)); rewrite bind_run; py_go;
      [done|apply release_run].
  - destruct (negb (String.eqb s ""));
      rewrite bind_run; py_go; [done|apply release_run].
  - rewrite bind_run. py_go. cbn [meta_headers assign_headers].
    repeat (rewrite response_setitem_run;
            match goal with
            | |- context [setitem_raises env ?n ?v] =>
                destruct (setitem_raises env n v); py_go; [done|]
            end).
    apply release_run.
Qed.

Lemma process_response_run env a d r evs :
  process_response env
    {| attrs := a; data := d; response := Some r; events := evs |} =
  (process_result env a d r,
   {| attrs := a; data := d; response := Some (populated env a r);
      events := evs ++ process_trace env a d r |}).
Proof.
  unfold process_response, process_result, populated, process_trace,
    logging_exception.
  rewrite bind_run. unfold try_except. rewrite process_body_run.
  destruct (populate env _ r) as [[e|] r']; py_go;
    unfold response_get; py_go; [done|].
  destruct (release env d) as [[[]|e|b] fin]; py_go; unfold response_get;
    py_go; [done|by rewrite app_assoc|done].
Qed.

Lemma release_events env d ev :
  In ev (snd (release env d)) -> is_release d ev.
Proof.
  unfold release.
  destruct (d !! "rate_limit_key") as [k|] eqn:Hk; [|intros []].
  destruct (d !! "rate_limit_uid") as [u|] eqn:Hu; [|intros []].
  cbn [snd In]. intros [<-|[]]. cbn [is_release]. by rewrite Hk, Hu.
Qed.

Lemma process_trace_events env a d r ev :
  In ev (process_trace env a d r) -> is_release d ev.
Proof.
  unfold process_trace.
  destruct (fst (populate env _ r)) as [e|].
  - intros [<-|[]]. reflexivity.
  - pose proof (release_events env d ev) as Hrel.
    destruct (release env d) as [[[]|e|b] fin]; cbn [snd] in Hrel;
      [done| |done].
    rewrite in_app_iff. intros [Hin|[<-|[]]]; [auto|reflexivity].
Qed.

(** The second [try] statement ends with the response unless the release
    ends with an exception that is not an [Exception]. *)
Lemma process_result_cases env a d r :
  process_result env a d r = Ok (Some (populated env a r)) \/
  exists k u b,
    d !! "rate_limit_key" = Some k /\ d !! "rate_limit_uid" = Some u /\
    fst (populate env (default PyNone (a !! "rate_limit_metadata")) r) = None /\
    finish_request env k u = Abort b /\
    process_result env a d r = Abort b.
Proof.
  unfold process_result, release.
  destruct (fst (populate env _ r)); [by left|].
  destruct (d !! "rate_limit_key") as [k|]; [|by left].
  destruct (d !! "rate_limit_uid") as [u|]; [|by left].
  destruct (finish_request env k u) as [[]|e|b] eqn:Hf;
    [by left|by left|right; eauto 10].
Qed.


(** Splits the goal on how the second [try] statement ends. *)
Ltac result_cases :=
  match goal with
  | |- context [process_result ?e ?a ?d ?r] =>
      let Hp := fresh "Hp" in
      destruct (process_result_cases e a d r)
        as [Hp|(? & ? & ? & _ & _ & _ & _ & Hp)];
      rewrite Hp
  end.

(** ** A whole run *)

Lemma run_spec env req a o s1 :
  check_body env req (start a) = (o, s1) ->
  response s1 = None ->
  run env req a =
  match o with
  | Ok (Return v) => (Ok v, s1)
  | Abort b => (Abort b, s1)
  | _ => after_check env req o s1
  end.
Proof.
  intros Hb Hr. unfold run, __call__, check_phase, after_check.
  rewrite bind_run. unfold start in *. py_go. unfold try_except. rewrite Hb.
  destruct s1 as [a1 d1 r1 e1]. cbn [response] in Hr. subst r1.
  assert (Hend : forall evs,
    (r <- call_get_response env req ;;
     response_bind r ;; process_response env)%py
      {| attrs := a1; data := d1; response := None; events := evs |} =
    match get_response env req a1 with
    | Raise e =>
        (Raise e,
         {| attrs := a1; data := d1; response := None;
            events := evs ++ [EvGetResponse] |})
    | Abort b =>
        (Abort b,
         {| attrs := a1; data := d1; response := None;
            events := evs ++ [EvGetResponse] |})
    | Ok r =>
        (process_result env a1 d1 r,
         {| attrs := a1; data := d1; response := Some (populated env a1 r);
            events := (evs ++ [EvGetResponse]) ++ process_trace env a1 d1 r |})
    end).
  { intros evs. unfold call_get_response. py_go.
    destruct (get_response env req a1) as [r|e|b]; py_go; [|done|done].
    apply process_response_run. }
  destruct o as [[|v]|e|b]; cbn beta iota.
  - rewrite Hend. cbn [fail_open_log app attrs data events].
    destruct (get_response env req a1); [by rewrite <- app_assoc|done|done].
  - done.
  - unfold logging_exception. rewrite bind_run.
    cbn [emit ret attrs data response events]. cbn beta iota.
    rewrite Hend. cbn [fail_open_log attrs data events].
    destruct (get_response env req a1);
      by rewrite <- ?app_assoc.
  - done.
Qed.

Lemma run_state env req a :
  exists o s1,
    check_body env req (start a) = (o, s1) /\
    check_path env req a o s1 /\
    run env req a =
      match o with
      | Ok (Return v) => (Ok v, s1)
      | Abort b => (Abort b, s1)
      | _ => after_check env req o s1
      end /\
    attrs (snd (run env req a)) = attrs s1 /\
    data (snd (run env req a)) = data s1 /\
    events (snd (run env req a)) =
      (events s1 ++ tail_events env req o s1)%list.
Proof.
  pose proof (check_body_path env req a) as P.
  destruct (check_body env req (start a)) as [o s1] eqn:E.
  cbn [fst snd] in P.
  assert (R : run env req a =
              match o with
              | Ok (Return v) => (Ok v, s1)
              | Abort b => (Abort b, s1)
              | _ => after_check env req o s1
              end)
    by (apply run_spec; [done|by eapply check_path_response]).
  exists o, s1. rewrite R. repeat split; try done;
    unfold tail_events, after_check;
    destruct o as [[|v]|e|b]; try done; rewrite ?app_nil_r; try done;
    destruct (get_response env req (attrs s1)); try done;
    cbn [snd events]; by rewrite ?app_nil_r.
Qed.

Lemma tail_events_cases env req o s1 ev :
  In ev (tail_events env req o s1) ->
  In ev (fail_open_log o) \/ ev = EvGetResponse \/ is_release (data s1) ev.
Proof.
  unfold tail_events. destruct o as [[|v]|e|b]; [|intros []| |intros []];
    rewrite !in_app_iff; cbn [In];
    (intros [H|[[H|[]]|H]]; [by left | right; by left | right; right]);
    destruct (get_response env req (attrs s1)); try done;
    by eapply process_trace_events.
Qed.

Lemma tail_events_no_uuid env req o s1 h :
  ~ In (EvUuid4 h) (tail_events env req o s1).
Proof.
  intros [H|[H|H]]%tail_events_cases; [|done..].
  destruct o; [done| |done]. by destruct H.
Qed.

Lemma run_check_events env req a o s1 k rl u :
  events (snd (run env req a)) = (events s1 ++ tail_events env req o s1)%list ->
  In (EvCheck k rl u) (events (snd (run env req a))) ->
  In (EvCheck k rl u) (events s1).
Proof.
  intros -> [H|H]%in_app_iff; [done|].
  apply tail_events_cases in H as [H|[H|H]]; [|done..].
  destruct o; [done| |done]. by destruct H.
Qed.

(** The two early [return]s of lines 44 and 57, for every request. *)
Lemma run_key_absent env req a vf :
  resolve env (path req) = Ok vf ->
  get_rate_limit_key env vf req = Ok None ->
  run env req a = (Ok None, mk (attrs_init a) ∅ [EvUuid4 (uuid4_hex env)]).
Proof.
  intros Hr Hk. destruct (run_state env req a) as (o & s1 & _ & P & -> & _).
  destruct P; path_facts; congruence.
Qed.

Lemma run_policy_absent env req a vf key cls :
  key_resolves env req vf key ->
  view_class vf = Some cls ->
  is_RateLimitCategory env (category_of key) = true ->
  get_rate_limit_value env (method req) cls (category_of key) = Ok None ->
  run env req a =
    (Ok None,
     mk (attrs_cat a key) (data_keyed env key) [EvUuid4 (uuid4_hex env)]).
Proof.
  intros [Hr Hk] Hc Hcat Hv.
  destruct (run_state env req a) as (o & s1 & _ & P & -> & _).
  destruct P; path_facts; simplify_eq; congruence.
Qed.

(** ** The condition of lines 63-67 *)

Lemma rate_limit_cond_off ty :
  rate_limit_cond false ty = true <-> ty = FIXED_WINDOW.
Proof. destruct ty; cbn; intuition discriminate. Qed.

Lemma rate_limit_cond_on ty :
  rate_limit_cond true ty = true <-> ty <> NOT_LIMITED.
Proof. destruct ty; cbn; intuition (discriminate || congruence). Qed.

Lemma rate_limit_cond_spec toggle ty b :
  rate_limit_cond toggle ty = b ->
  (toggle = false -> (b = true <-> ty = FIXED_WINDOW)) /\
  (toggle = true -> (b = true <-> ty <> NOT_LIMITED)).
Proof.
  intros <-. destruct toggle.
  - split; [done|]. intros _. apply rate_limit_cond_on.
  - split; [|done]. intros _. apply rate_limit_cond_off.
Qed.

(** ** The category prefix of a key *)

Lemma partition_colon_spec s :
  ~ In ":"%char (list_ascii_of_string (fst (partition_colon s))) /\
  s = match snd (partition_colon s) with
      | Some r => fst (partition_colon s) ++ ":" ++ r
      | None => fst (partition_colon s)
      end.
Proof.
  induction s as [|c s [IHn IHe]]; cbn [partition_colon].
  - split; [intros []|done].
  - destruct (Ascii.eqb_spec c ":"%char) as [->|Hne].
    + split; [intros []|done].
    + destruct (partition_colon s) as [h t]. cbn [fst snd] in *.
      split.
      * cbn [list_ascii_of_string In]. intros [?|?]; [congruence|tauto].
      * destruct t as [r|];
          [change (String c s = String c (h ++ ":" ++ r))|];
          by f_equal.
Qed.

Lemma category_of_prefix key :
  ~ In ":"%char (list_ascii_of_string (category_of key)) /\
  (key = category_of key \/ exists rest, key = category_of key ++ ":" ++ rest).
Proof.
  unfold category_of. destruct (partition_colon_spec key) as [Hn He].
  split; [done|]. destruct (snd (partition_colon key)); eauto.
Qed.

Example category_of_example : category_of key_example = "ip".
Proof. reflexivity. Qed.

Example message_10_60 :
  DEFAULT_ERROR_MESSAGE_format 10 60 =
  "You are attempting to use this endpoint too frequently. Limit is 10 requests in 60 seconds".
Proof. reflexivity. Qed.

(** * The claims of the design document *)

(** ** C1: an absent key or an absent policy *)

(** C1.  The document says that a request whose key resolution or policy
    lookup returns absent skips rate limiting and still reaches the
    endpoint, whose response is returned.  At the two requests below the
    middleware instead ends at the bare [return] of line 44, respectively
    line 57: it returns [None] and the endpoint is never called. *)
Theorem absent_key_or_policy_skips_endpoint :
  (get_rate_limit_key env_no_key (view_example false) request_example
     = Ok None /\
   fst (run env_no_key request_example ∅) = Ok None /\
   ~ In EvGetResponse (events (snd (run env_no_key request_example ∅)))) /\
  (get_rate_limit_value env_no_policy (method request_example)
     (endpoint_example false) (category_of key_example) = Ok None /\
   fst (run env_no_policy request_example ∅) = Ok None /\
   ~ In EvGetResponse (events (snd (run env_no_policy request_example ∅)))).
Proof.
  rewrite (run_key_absent env_no_key request_example ∅ (view_example false))
    by reflexivity.
  rewrite (run_policy_absent env_no_policy request_example ∅
             (view_example false) key_example (endpoint_example false))
    by (try split; reflexivity).
  cbn [fst snd mk events In]. intuition discriminate.
Qed.

(** ** C2: failing open *)

(** C2.  If the body of the first [try] block raises [e] (whichever of key
    resolution, policy lookup or the check against the store raised it),
    then [e] is logged with the fail-open message, the endpoint is called
    next, and what the middleware returns is the endpoint's outcome: its
    response, with its status and content and with no header touched other
    than the rate-limit ones, never a rejection built by the middleware.
    The one other way a run can end after the endpoint's response is that
    the release, called at line 102, ends with an exception that is not an
    [Exception]: the second handler lets it through. *)
Theorem check_exception_fails_open env req a e s1 :
  check_body env req (start a) = (Raise e, s1) ->
  (exists rest,
     events (snd (run env req a)) =
       (events s1 ++
        EvLogException
          "Error during rate limiting, failing open. THIS SHOULD NOT HAPPEN" e
        :: EvGetResponse :: rest)%list) /\
  match get_response env req (attrs s1) with
  | Ok r =>
      (exists r',
         fst (run env req a) = Ok (Some r') /\
         status_code r' = status_code r /\
         content r' = content r /\
         forall n, ~ In n header_names -> headers r' !! n = headers r !! n) \/
      (exists k u b,
         In (EvFinish k u) (events (snd (run env req a))) /\
         finish_request env k u = Abort b /\
         fst (run env req a) = Abort b)
  | Raise e' => fst (run env req a) = Raise e'
  | Abort b => fst (run env req a) = Abort b
  end.
Proof.
  intros Hb.
  destruct (run_state env req a) as (o & s & E & _ & R & _ & _ & Hev).
  rewrite Hb in E. injection E as <- <-.
  split.
  - rewrite Hev. unfold tail_events. cbn [fail_open_log app]. eauto.
  - rewrite Hev, R. unfold after_check, tail_events.
    destruct (get_response env req (attrs s1)) as [r|e'|b]; [|done|done].
    cbn [fst].
    destruct (process_result_cases env (attrs s1) (data s1) r)
      as [Hp|(k & u & b & Hk & Hu & Hpop & Hf & Hp)]; rewrite Hp.
    + left. exists (populated env (attrs s1) r). split; [done|].
      destruct (populated_body env (attrs s1) r) as [? ?].
      repeat split; try done. intros n Hn. by apply populated_frame.
    + right. exists k, u, b. split; [|done].
      rewrite !in_app_iff. do 3 right.
      unfold process_trace, release. rewrite Hpop, Hk, Hu, Hf.
      by left.
Qed.

Lemma check_exception_fails_open_witness :
  let s1 := snd (check_body env_store_down request_example (start ∅)) in
  check_body env_store_down request_example (start ∅)
    = (Raise (Failure "redis timeout"), s1) /\
  (exists rest,
     events (snd (run env_store_down request_example ∅)) =
       (events s1 ++
        EvLogException
          "Error during rate limiting, failing open. THIS SHOULD NOT HAPPEN"
          (Failure "redis timeout")
        :: EvGetResponse :: rest)%list) /\
  exists r',
    fst (run env_store_down request_example ∅) = Ok (Some r') /\
    status_code r' = status_code response_example /\
    content r' = content response_example /\
    forall n, ~ In n header_names ->
      headers r' !! n = headers response_example !! n.
Proof.
  cbv zeta.
  assert (Hb : check_body env_store_down request_example (start ∅) =
               (Raise (Failure "redis timeout"),
                snd (check_body env_store_down request_example (start ∅))))
    by (vm_compute; reflexivity).
  split; [exact Hb|].
  destruct (check_exception_fails_open env_store_down request_example ∅
              _ _ Hb) as [Hlog Hout].
  split; [exact Hlog|].
  destruct Hout as [Hret|(k & u & b & _ & Hf & _)];
    [exact Hret|discriminate Hf].
Defined.

(** ** C3: release after a check *)

(** C3.  The document says that release is invoked on every exit path that
    follows a check, the 429 path included.  At the first request below the
    check is made, the middleware returns the 429 of line 72, and the trace
    ends there: [finish_request] is never called.  At the second the check
    is made and the endpoint answers, a header assignment raises, and line
    102 is skipped with the rest of the second [try] block. *)
Theorem rejected_request_is_not_released :
  let rejecting := env_example false FIXED_WINDOW true in
  ((exists r,
      fst (run rejecting request_example ∅) = Ok (Some r) /\
      status_code r = 429) /\
   events (snd (run rejecting request_example ∅)) =
     [EvUuid4 (uuid4_hex rejecting);
      EvCheck (PyStr key_example) policy_example
        (PyStr (uuid4_hex rejecting))] /\
   forall k u,
     ~ In (EvFinish k u) (events (snd (run rejecting request_example ∅)))) /\
  (events (snd (run env_bad_header request_example ∅)) =
     [EvUuid4 (uuid4_hex env_bad_header);
      EvCheck (PyStr key_example) policy_example
        (PyStr (uuid4_hex env_bad_header));
      EvGetResponse;
      EvLogException "COULD NOT POPULATE RATE LIMIT HEADERS"
        (Failure "BadHeaderError")]).
Proof.
  assert (E : events (snd (run (env_example false FIXED_WINDOW true)
                             request_example ∅)) =
              [EvUuid4 (uuid4_hex (env_example false FIXED_WINDOW true));
               EvCheck (PyStr key_example) policy_example
                 (PyStr (uuid4_hex (env_example false FIXED_WINDOW true)))])
    by (vm_compute; reflexivity).
  cbv zeta. split; [split; [|split; [exact E|]]|].
  - eexists. split; [vm_compute; reflexivity|reflexivity].
  - intros k u. rewrite E. cbn [In]. intuition discriminate.
  - vm_compute. reflexivity.
Qed.

(** ** C4: the toggle *)

(** C4.  For every request on which the check was made and returned [m],
    the flag [will_be_rate_limited] ends up set as the toggle prescribes:
    with the toggle off it is true exactly for a [FIXED_WINDOW]
    classification, with the toggle on exactly for a classification other
    than [NOT_LIMITED]; and a request that is not marked reaches the
    endpoint, so that with the toggle off a [CONCURRENT] classification
    alone never rejects. *)
Theorem rejection_gated_by_toggle env req a k rl u m :
  let sf := snd (run env req a) in
  In (EvCheck k rl u) (events sf) ->
  above_rate_limit_check env k rl u = Ok m ->
  exists marked : bool,
    data sf !! "will_be_rate_limited" = Some (PyBool marked) /\
    (ENFORCE_CONCURRENT_RATE_LIMITS env = false ->
       (marked = true <-> rate_limit_type m = FIXED_WINDOW)) /\
    (ENFORCE_CONCURRENT_RATE_LIMITS env = true ->
       (marked = true <-> rate_limit_type m <> NOT_LIMITED)) /\
    (marked = false -> In EvGetResponse (events sf)).
Proof.
  intros sf Hin Hchk. subst sf.
  destruct (run_state env req a) as (o & s1 & _ & P & _ & _ & Hd & Hev).
  apply (run_check_events _ _ _ _ _ _ _ _ Hev) in Hin.
  rewrite Hd, Hev.
  destruct P; path_facts; try (intuition discriminate);
    destruct Hin as [?|[?|[]]]; simplify_eq; try congruence;
    same_meta m;
    match goal with
    | H : rate_limit_cond _ _ = ?b |- _ =>
        exists b; destruct (rate_limit_cond_spec _ _ _ H) as [Hoff Hon]
    end;
    rewrite ?data_keyed_flag, ?data_marked_flag;
    (split; [done|]); (split; [done|]); (split; [done|]); try done.
  intros _. unfold tail_events. cbn. auto.
Qed.

Lemma rejection_gated_by_toggle_witness :
  let env := env_example false CONCURRENT true in
  let sf := snd (run env request_example ∅) in
  In (EvCheck (PyStr key_example) policy_example (PyStr (uuid4_hex env)))
     (events sf) /\
  above_rate_limit_check env (PyStr key_example) policy_example
     (PyStr (uuid4_hex env)) = Ok (meta_example CONCURRENT) /\
  exists marked : bool,
    data sf !! "will_be_rate_limited" = Some (PyBool marked) /\
    (ENFORCE_CONCURRENT_RATE_LIMITS env = false ->
       (marked = true <->
        rate_limit_type (meta_example CONCURRENT) = FIXED_WINDOW)) /\
    (ENFORCE_CONCURRENT_RATE_LIMITS env = true ->
       (marked = true <->
        rate_limit_type (meta_example CONCURRENT) <> NOT_LIMITED)) /\
    (marked = false -> In EvGetResponse (events sf)).
Proof.
  assert (Hin : In (EvCheck (PyStr key_example) policy_example
                      (PyStr (uuid4_hex (env_example false CONCURRENT true))))
                   (events (snd (run (env_example false CONCURRENT true)
                                   request_example ∅)))).
  { vm_compute. right. left. reflexivity. }
  split; [exact Hin|]. split; [reflexivity|].
  exact (rejection_gated_by_toggle (env_example false CONCURRENT true)
           request_example ∅ _ _ _ (meta_example CONCURRENT) Hin eq_refl).
Defined.

(** ** C5: the rejection *)

(** C5.  The document says that a rejected request gets status 429 and the
    body [{"detail": message}].  The request below is marked as
    rate-limited and its endpoint class enforces.  The code builds the
    dictionary of the document, the message carrying the limit 10 and the
    window 60 of the check's [Meta], and hands it to Django's
    [HttpResponse], which iterates its argument: the response that is
    returned has status 429, but its body is the text [detail], the one
    key of the dictionary, and the message is in neither the body nor a
    header. *)
Theorem rejection_body_is_detail_key :
  let env := env_example false FIXED_WINDOW true in
  let res := fst (run env request_example ∅) in
  let sf := snd (run env request_example ∅) in
  data sf !! "will_be_rate_limited" = Some (PyBool true) /\
  truthy (class_getattr_default (endpoint_example true) "enforce_rate_limit"
            (PyBool false)) = true /\
  res = Ok (Some (HttpResponse_new
    (ContentDict
       [("detail",
         PyStr "You are attempting to use this endpoint too frequently. Limit is 10 requests in 60 seconds")])
    429)) /\
  res = Ok (Some
    {| content := ContentRaw "detail";
       status_code := 429;
       headers := {[ "Content-Type" := PyStr "text/html; charset=utf-8" ]} |}).
Proof.
  cbv zeta. split; [vm_compute; reflexivity|]. split; [reflexivity|].
  split; vm_compute; reflexivity.
Qed.

(** ** C6: the response headers *)




(** ** C7: a failure while populating the headers *)

(** C7.  If the first [try] statement lets the request through, the
    endpoint returns [r], and the body of the second [try] block then
    raises [e], the middleware still returns a response: the endpoint's,
    with its status, its content and every header other than the
    rate-limit ones as the endpoint set them; and [e] is logged as the last
    event, under the message of line 104. *)
Theorem header_failure_isolated env req a s1 r s2 e s3 :
  check_phase env req (start a) = (Ok Fallthrough, s1) ->
  call_get_response env req s1 = (Ok r, s2) ->
  process_body env (snd (response_bind r s2)) = (Raise e, s3) ->
  exists r',
    fst (run env req a) = Ok (Some r') /\
    status_code r' = status_code r /\
    content r' = content r /\
    (forall n, ~ In n header_names -> headers r' !! n = headers r !! n) /\
    events (snd (run env req a)) =
      (events s3 ++
       [EvLogException "COULD NOT POPULATE RATE LIMIT HEADERS" e])%list.
Proof.
  intros Hc Hg Hp.
  unfold run, __call__. rewrite bind_run.
  cbn [data_new start attrs data response events].
  unfold start in Hc. rewrite bind_run, Hc. cbn beta iota.
  rewrite bind_run, Hg. cbn beta iota.
  rewrite bind_run.
  destruct s2 as [a2 d2 r2 e2]. cbn [response_bind snd attrs data events] in *.
  rewrite process_response_run. cbn [fst snd events].
  rewrite process_body_run in Hp.
  exists (populated env a2 r).
  destruct (populated_body env a2 r) as [Hs Hb].
  assert (Hend : process_result env a2 d2 r = Ok (Some (populated env a2 r)) /\
                 (e2 ++ process_trace env a2 d2 r =
                  events s3 ++ [EvLogException MSG_HEADERS e])%list).
  { unfold process_result, process_trace.
    destruct (populate env _ r) as [[e'|] r'] eqn:Hpop; cbn [fst].
    - injection Hp as <- <-. done.
    - destruct (release env d2) as [[[]|e'|b] fin]; cbn [fst snd] in Hp;
        [discriminate| |discriminate].
      injection Hp as <- <-. cbn [events fst]. by rewrite app_assoc. }
  destruct Hend as [Hres Htr].
  split; [done|]. split; [done|]. split; [done|].
  split; [intros n Hn; by apply populated_frame|done].
Qed.

Lemma header_failure_isolated_witness :
  let env := env_bad_header in
  let s1 := snd (check_phase env request_example (start ∅)) in
  let s2 := snd (call_get_response env request_example s1) in
  let s3 := snd (process_body env (snd (response_bind response_example s2))) in
  check_phase env request_example (start ∅) = (Ok Fallthrough, s1) /\
  call_get_response env request_example s1 = (Ok response_example, s2) /\
  process_body env (snd (response_bind response_example s2))
    = (Raise (Failure "BadHeaderError"), s3) /\
  exists r',
    fst (run env request_example ∅) = Ok (Some r') /\
    status_code r' = status_code response_example /\
    content r' = content response_example /\
    (forall n, ~ In n header_names ->
       headers r' !! n = headers response_example !! n) /\
    events (snd (run env request_example ∅)) =
      (events s3 ++
       [EvLogException "COULD NOT POPULATE RATE LIMIT HEADERS"
          (Failure "BadHeaderError")])%list.
Proof.
  cbv zeta.
  assert (H1 : check_phase env_bad_header request_example (start ∅) =
               (Ok Fallthrough,
                snd (check_phase env_bad_header request_example (start ∅))))
    by (vm_compute; reflexivity).
  assert (H2 : call_get_response env_bad_header request_example
                 (snd (check_phase env_bad_header request_example (start ∅))) =
               (Ok response_example,
                snd (call_get_response env_bad_header request_example
                  (snd (check_phase env_bad_header request_example
                          (start ∅))))))
    by (vm_compute; reflexivity).
  assert (H3 : process_body env_bad_header
      (snd (response_bind response_example
         (snd (call_get_response env_bad_header request_example
            (snd (check_phase env_bad_header request_example (start ∅))))))) =
    (Raise (Failure "BadHeaderError"),
     snd (process_body env_bad_header
      (snd (response_bind response_example
         (snd (call_get_response env_bad_header request_example
            (snd (check_phase env_bad_header request_example
                    (start ∅))))))))))
    by (vm_compute; reflexivity).
  split; [exact H1|]. split; [exact H2|]. split; [exact H3|].
  exact (header_failure_isolated _ _ _ _ _ _ _ _ H1 H2 H3).
Defined.

(** ** C8: where the check result is kept *)

(** C8, as the document states it, fails on the code: after a checked
    request the request object holds the check's [Meta] under the attribute
    [rate_limit_metadata] (and the key's category under
    [rate_limit_category]), neither of which it had on arrival. *)
Lemma meta_threading_counterexample :
  let env := env_example false NOT_LIMITED false in
  (∅ : gmap string pyval) !! "rate_limit_metadata" = None /\
  attrs (snd (run env request_example ∅)) !! "rate_limit_metadata"
    = Some (PyMeta (meta_example NOT_LIMITED)) /\
  attrs (snd (run env request_example ∅)) !! "rate_limit_category"
    = Some (PyStr "ip").
Proof. vm_compute. tauto. Qed.

(** C8, amended.  The middleware writes two attributes of the shared
    request object and no other: every attribute except
    [rate_limit_category] and [rate_limit_metadata] is after the run what it
    was before.  For every request on which the check was made with key [k]
    and id [u] and returned [m], [m] is stored on the request as
    [rate_limit_metadata], while [k] and [u] are held in the local
    dictionary [data]. *)
Theorem meta_kept_on_request env req a :
  let sf := snd (run env req a) in
  (forall n, n <> "rate_limit_category" -> n <> "rate_limit_metadata" ->
     attrs sf !! n = a !! n) /\
  (forall k rl u m,
     In (EvCheck k rl u) (events sf) ->
     above_rate_limit_check env k rl u = Ok m ->
     attrs sf !! "rate_limit_metadata" = Some (PyMeta m) /\
     data sf !! "rate_limit_key" = Some k /\
     data sf !! "rate_limit_uid" = Some u).
Proof.
  intros sf. subst sf.
  destruct (run_state env req a) as (o & s1 & _ & P & _ & Ha & Hd & Hev).
  rewrite Ha, Hd. split.
  - intros n Hc Hm. by eapply check_path_attrs_frame.
  - intros k rl u m Hin Hchk.
    apply (run_check_events _ _ _ _ _ _ _ _ Hev) in Hin.
    destruct P; path_facts; try (intuition discriminate);
      destruct Hin as [?|[?|[]]]; simplify_eq; try congruence;
      same_meta m;
      unfold attrs_meta;
      rewrite lookup_insert_eq, ?data_keyed_key, ?data_keyed_uid,
        ?data_marked_key, ?data_marked_uid; done.
Qed.

Lemma meta_kept_on_request_witness :
  let env := env_example false NOT_LIMITED false in
  let sf := snd (run env request_example attrs_stale) in
  attrs sf !! "user" = attrs_stale !! "user" /\
  attrs sf !! "rate_limit_metadata" = Some (PyMeta (meta_example NOT_LIMITED))
  /\ data sf !! "rate_limit_key" = Some (PyStr key_example)
  /\ data sf !! "rate_limit_uid" = Some (PyStr (uuid4_hex env)).
Proof.
  split.
  - apply (proj1 (meta_kept_on_request (env_example false NOT_LIMITED false)
                    request_example attrs_stale) "user"); discriminate.
  - apply (proj2 (meta_kept_on_request (env_example false NOT_LIMITED false)
                    request_example attrs_stale)
             (PyStr key_example) policy_example
             (PyStr (uuid4_hex (env_example false NOT_LIMITED false)))
             (meta_example NOT_LIMITED)).
    + vm_compute. right. left. reflexivity.
    + reflexivity.
Defined.

(** ** C9: one request id *)

(** C9.  Every run draws exactly one request id, before any other call:
    the trace starts with the draw and has no second one.  The id handed to
    the check is the one drawn, and whenever both the check and the release
    are called, the release gets the very key and id that the check got. *)
Theorem one_request_id_for_check_and_release env req a :
  let evs := events (snd (run env req a)) in
  (exists rest,
     evs = EvUuid4 (uuid4_hex env) :: rest /\
     forall h, ~ In (EvUuid4 h) rest) /\
  (forall k rl u, In (EvCheck k rl u) evs -> u = PyStr (uuid4_hex env)) /\
  (forall k rl u k' u',
     In (EvCheck k rl u) evs -> In (EvFinish k' u') evs ->
     k' = k /\ u' = u).
Proof.
  intros evs. subst evs.
  destruct (run_state env req a) as (o & s1 & _ & P & _ & _ & _ & Hev).
  pose proof (check_path_events _ _ _ _ _ P) as Hs1.
  split; [|split].
  - rewrite Hev.
    destruct Hs1 as [->|(key & rl & -> & _)]; cbn [app];
      eexists; (split; [reflexivity|]); intros h; cbn [In];
      pose proof (tail_events_no_uuid env req o s1 h); intuition discriminate.
  - intros k rl u Hin.
    apply (run_check_events _ _ _ _ _ _ _ _ Hev) in Hin.
    destruct Hs1 as [E|(key & rl' & E & _)]; rewrite E in Hin;
      cbn [In] in Hin; unfold uid_of in *; intuition congruence.
  - intros k rl u k' u' Hin Hfin.
    apply (run_check_events _ _ _ _ _ _ _ _ Hev) in Hin.
    rewrite Hev in Hfin. apply in_app_iff in Hfin.
    destruct Hs1 as [E|(key & rl' & E & Hk & Hu)]; rewrite E in Hin, Hfin;
      cbn [In] in Hin, Hfin; [intuition discriminate|].
    destruct Hin as [?|[[= <- <- <-]|[]]]; [discriminate|].
    destruct Hfin as [[?|[?|[]]]|Hfin]; try discriminate.
    apply tail_events_cases in Hfin as [Hfin|[?|[Hk' Hu']]]; [|discriminate|].
    + destruct o; [done| |done]. by destruct Hfin.
    + split; congruence.
Qed.

Lemma one_request_id_for_check_and_release_witness :
  let env := env_example false NOT_LIMITED false in
  let evs := events (snd (run env request_example ∅)) in
  In (EvCheck (PyStr key_example) policy_example (PyStr (uuid4_hex env))) evs /\
  In (EvFinish (PyStr key_example) (PyStr (uuid4_hex env))) evs /\
  PyStr (uuid4_hex env) = PyStr (uuid4_hex env) /\
  PyStr key_example = PyStr key_example /\
  PyStr (uuid4_hex env) = PyStr (uuid4_hex env).
Proof.
  cbv zeta.
  assert (Hc : In (EvCheck (PyStr key_example) policy_example
                     (PyStr (uuid4_hex (env_example false NOT_LIMITED false))))
                  (events (snd (run (env_example false NOT_LIMITED false)
                                  request_example ∅))))
    by (vm_compute; right; left; reflexivity).
  assert (Hf : In (EvFinish (PyStr key_example)
                     (PyStr (uuid4_hex (env_example false NOT_LIMITED false))))
                  (events (snd (run (env_example false NOT_LIMITED false)
                                  request_example ∅))))
    by (vm_compute; right; right; right; left; reflexivity).
  split; [exact Hc|]. split; [exact Hf|]. split.
  - exact (proj1 (proj2 (one_request_id_for_check_and_release
                           (env_example false NOT_LIMITED false)
                           request_example ∅))
             _ _ _ Hc).
  - exact (proj2 (proj2 (one_request_id_for_check_and_release
                           (env_example false NOT_LIMITED false)
                           request_example ∅))
             _ _ _ _ _ Hc Hf).
Defined.

(** ** C10: the category attribute *)

(** C10.  Whatever the request's [rate_limit_category] was on arrival: when
    a key resolves, the attribute ends up as the text [c] of the key before
    its first colon ([c] has no colon and the key is [c] followed by a colon
    and the rest, or the key has no colon and is [c]); when no key resolves
    (resolution raises or returns absent), the attribute ends up [None]. *)
Theorem category_is_key_prefix env req a :
  let cat := attrs (snd (run env req a)) !! "rate_limit_category" in
  (forall vf key,
     resolve env (path req) = Ok vf ->
     get_rate_limit_key env vf req = Ok (Some key) ->
     exists c,
       cat = Some (PyStr c) /\
       ~ In ":"%char (list_ascii_of_string c) /\
       (key = c \/ exists rest, key = c ++ ":" ++ rest)) /\
  ((forall vf key,
      ~ (resolve env (path req) = Ok vf /\
         get_rate_limit_key env vf req = Ok (Some key))) ->
   cat = Some PyNone).
Proof.
  intros cat. subst cat.
  destruct (run_state env req a) as (o & s1 & _ & P & _ & Ha & _ & _).
  rewrite Ha. split.
  - intros vf key Hr Hk. exists (category_of key).
    split; [|apply category_of_prefix].
    destruct P; path_facts; simplify_eq; try congruence;
      unfold attrs_meta, attrs_cat;
      rewrite ?(lookup_insert_ne _ "rate_limit_metadata") by done;
      rewrite lookup_insert_eq; congruence.
  - intros Hno.
    destruct P; path_facts; unfold attrs_init;
      try (by rewrite lookup_insert_eq);
      exfalso; eapply Hno; eauto.
Qed.

Lemma category_is_key_prefix_witness :
  let env := env_example false NOT_LIMITED false in
  (exists c,
     attrs (snd (run env request_example ∅)) !! "rate_limit_category"
       = Some (PyStr c) /\
     ~ In ":"%char (list_ascii_of_string c) /\
     (key_example = c \/ exists rest, key_example = c ++ ":" ++ rest)) /\
  attrs (snd (run env_no_key request_example attrs_stale))
    !! "rate_limit_category" = Some PyNone.
Proof.
  split.
  - apply (proj1 (category_is_key_prefix (env_example false NOT_LIMITED false)
                    request_example ∅)
             (view_example false) key_example);
      reflexivity.
  - apply (proj2 (category_is_key_prefix env_no_key request_example
                    attrs_stale)).
    intros vf key [_ H]. discriminate H.
Defined.

(** * Further properties of the middleware *)



(** X2.  Line 85 stands outside both [try] statements: when the endpoint
    raises [e], the middleware raises [e], the endpoint call is the last
    event, and [finish_request] is not called, whether or not the check
    was. *)
Theorem endpoint_exception_skips_release env req a e :
  In EvGetResponse (events (snd (run env req a))) ->
  get_response env req (attrs (snd (run env req a))) = Raise e ->
  fst (run env req a) = Raise e /\
  (exists pre, events (snd (run env req a)) = (pre ++ [EvGetResponse])%list) /\
  forall k u, ~ In (EvFinish k u) (events (snd (run env req a))).
Proof.
  destruct (run_state env req a) as (o & s1 & _ & P & R & Ha & _ & Hev).
  pose proof (check_path_events _ _ _ _ _ P) as Hs1.
  rewrite Ha, Hev, R. unfold tail_events, after_check.
  intros Hin Hget.
  destruct o as [[|v]|e1|b1].
  4: { exfalso. rewrite app_nil_r in Hin.
       destruct Hs1 as [E|(key & rl & E & _)]; rewrite E in Hin;
         cbn [In] in Hin; intuition discriminate. }
  - rewrite Hget. cbn [fst fail_open_log app].
    split; [done|]. split; [eexists; by rewrite ?app_nil_r|].
    intros k u [H|H]%in_app_iff.
    + destruct Hs1 as [E|(key & rl & E & _)]; rewrite E in H;
        cbn [In] in H; intuition discriminate.
    + rewrite ?app_nil_r in H. cbn [In] in H. intuition discriminate.
  - exfalso. rewrite app_nil_r in Hin.
    destruct Hs1 as [E|(key & rl & E & _)]; rewrite E in Hin;
      cbn [In] in Hin; intuition discriminate.
  - rewrite Hget. cbn [fst fail_open_log app].
    split; [done|]. split.
    + exists (events s1 ++ [EvLogException MSG_FAIL_OPEN e1])%list.
      by rewrite <- app_assoc.
    + intros k u [H|H]%in_app_iff.
      * destruct Hs1 as [E|(key & rl & E & _)]; rewrite E in H;
          cbn [In] in H; intuition discriminate.
      * cbn [In] in H. intuition discriminate.
Qed.

Lemma endpoint_exception_skips_release_witness :
  let env := env_endpoint_raises in
  In (EvCheck (PyStr key_example) policy_example (PyStr (uuid4_hex env)))
     (events (snd (run env request_example ∅))) /\
  fst (run env request_example ∅) = Raise (Failure "endpoint error") /\
  (exists pre,
     events (snd (run env request_example ∅)) = (pre ++ [EvGetResponse])%list) /\
  forall k u, ~ In (EvFinish k u) (events (snd (run env request_example ∅))).
Proof.
  split; [vm_compute; right; left; reflexivity|].
  apply (endpoint_exception_skips_release env_endpoint_raises request_example ∅).
  - vm_compute. right. right. left. reflexivity.
  - reflexivity.
Defined.

(** X3.  The middleware returns no response ([None]) exactly when key
    resolution returns [None] (line 44) or, the key being resolved, its
    category valid and the view a class-based one, policy lookup returns
    [None] (line 57). *)
Theorem returns_none_iff_absent env req a :
  fst (run env req a) = Ok None <->
  exists vf,
    resolve env (path req) = Ok vf /\
    (get_rate_limit_key env vf req = Ok None \/
     exists key cls,
       get_rate_limit_key env vf req = Ok (Some key) /\
       view_class vf = Some cls /\
       is_RateLimitCategory env (category_of key) = true /\
       get_rate_limit_value env (method req) cls (category_of key) = Ok None).
Proof.
  split.
  - destruct (run_state env req a) as (o & s1 & _ & P & R & _).
    rewrite R.
    destruct P; path_facts; unfold after_check; cbn [fst];
      try (destruct (get_response env req _); cbn [fst];
           [result_cases|..]; discriminate);
      try discriminate; intros _; eexists; (split; [eassumption|]);
      [by left | right; eauto 10].
  - intros (vf & Hr & [Hk | (key & cls & Hk & Hc & Hcat & Hv)]).
    + by rewrite (run_key_absent env req a vf).
    + by rewrite (run_policy_absent env req a vf key cls).
Qed.

Lemma returns_none_iff_absent_witness :
  fst (run env_no_policy request_example ∅) = Ok None /\
  exists vf,
    resolve env_no_key (path request_example) = Ok vf /\
    (get_rate_limit_key env_no_key vf request_example = Ok None \/
     exists key cls,
       get_rate_limit_key env_no_key vf request_example = Ok (Some key) /\
       view_class vf = Some cls /\
       is_RateLimitCategory env_no_key (category_of key) = true /\
       get_rate_limit_value env_no_key (method request_example) cls
         (category_of key) = Ok None).
Proof.
  split.
  - apply (proj2 (returns_none_iff_absent env_no_policy request_example ∅)).
    exists (view_example false). split; [reflexivity|]. right.
    exists key_example, (endpoint_example false). repeat split; reflexivity.
  - apply (proj1 (returns_none_iff_absent env_no_key request_example ∅)).
    vm_compute. reflexivity.
Defined.

(** X4.  A response that the middleware returns without calling the
    endpoint is its own 429: it has status 429, its body is the text
    [detail], it carries none of the rate-limit headers, the request is
    marked [will_be_rate_limited], and the endpoint's class has a true
    [enforce_rate_limit]. *)
Theorem rejects_only_marked_enforced env req a r :
  fst (run env req a) = Ok (Some r) ->
  ~ In EvGetResponse (events (snd (run env req a))) ->
  status_code r = 429 /\
  content r = ContentRaw "detail" /\
  (forall n, In n header_names -> headers r !! n = None) /\
  data (snd (run env req a)) !! "will_be_rate_limited" = Some (PyBool true) /\
  exists vf cls,
    resolve env (path req) = Ok vf /\
    view_class vf = Some cls /\
    truthy (class_getattr_default cls "enforce_rate_limit" (PyBool false))
      = true.
Proof.
  destruct (run_state env req a) as (o & s1 & _ & P & R & _ & Hd & Hev).
  rewrite Hd, Hev, R. intros Hres Hno.
  destruct P; path_facts; cbn [fst] in Hres; try discriminate;
    try (exfalso; apply Hno; unfold tail_events;
         rewrite !in_app_iff; cbn [In]; tauto).
  injection Hres as <-. rewrite data_marked_flag.
  split; [done|]. split; [done|]. split; [|eauto 10].
  intros n Hn. cbn [too_many_requests HttpResponse_new headers].
  apply lookup_singleton_ne. cbn [header_names In] in Hn.
  intros <-. intuition discriminate.
Qed.

Lemma rejects_only_marked_enforced_witness :
  let env := env_example true CONCURRENT true in
  exists r,
    fst (run env request_example ∅) = Ok (Some r) /\
    ~ In EvGetResponse (events (snd (run env request_example ∅))) /\
    status_code r = 429 /\
    content r = ContentRaw "detail" /\
    (forall n, In n header_names -> headers r !! n = None) /\
    data (snd (run env request_example ∅)) !! "will_be_rate_limited"
      = Some (PyBool true).
Proof.
  cbv zeta.
  assert (H1 : fst (run (env_example true CONCURRENT true) request_example ∅)
               = Ok (Some (too_many_requests (meta_example CONCURRENT))))
    by (vm_compute; reflexivity).
  assert (H2 : ~ In EvGetResponse
                 (events (snd (run (env_example true CONCURRENT true)
                                 request_example ∅))))
    by (vm_compute; intuition discriminate).
  eexists. split; [exact H1|]. split; [exact H2|].
  destruct (rejects_only_marked_enforced _ _ _ _ H1 H2)
    as (Hs & Hc & Hh & Hf & _).
  auto.
Defined.

(** X5.  [above_rate_limit_check] is only ever called with the key that
    key resolution returned, the policy that [get_rate_limit_value] returned
    for the request's method, the view's class and the key's category, and
    the id drawn for this request; the category is a valid
    [RateLimitCategory]. *)
Theorem check_gets_resolved_key_and_policy env req a k rl u :
  In (EvCheck k rl u) (events (snd (run env req a))) ->
  exists vf key cls,
    resolve env (path req) = Ok vf /\
    get_rate_limit_key env vf req = Ok (Some key) /\
    view_class vf = Some cls /\
    is_RateLimitCategory env (category_of key) = true /\
    get_rate_limit_value env (method req) cls (category_of key)
      = Ok (Some rl) /\
    k = PyStr key /\
    u = PyStr (uuid4_hex env).
Proof.
  destruct (run_state env req a) as (o & s1 & _ & P & _ & _ & _ & Hev).
  intros Hin. apply (run_check_events _ _ _ _ _ _ _ _ Hev) in Hin.
  destruct P; path_facts; try (intuition discriminate);
    destruct Hin as [?|[?|[]]]; simplify_eq; eauto 12.
Qed.

Lemma check_gets_resolved_key_and_policy_witness :
  let env := env_example false NOT_LIMITED false in
  exists vf key cls,
    resolve env (path request_example) = Ok vf /\
    get_rate_limit_key env vf request_example = Ok (Some key) /\
    view_class vf = Some cls /\
    is_RateLimitCategory env (category_of key) = true /\
    get_rate_limit_value env (method request_example) cls (category_of key)
      = Ok (Some policy_example) /\
    PyStr key_example = PyStr key /\
    PyStr (uuid4_hex env) = PyStr (uuid4_hex env).
Proof.
  apply (check_gets_resolved_key_and_policy
           (env_example false NOT_LIMITED false) request_example ∅).
  vm_compute. right. left. reflexivity.
Defined.

Lemma split_at_unique {A} (x : A) (l1 l2 k1 k2 : list A) :
  (l1 ++ x :: l2 = k1 ++ x :: k2)%list ->
  ~ In x l1 -> ~ In x l2 -> l1 = k1 /\ l2 = k2.
Proof.
  revert k1. induction l1 as [|y l1 IH]; intros k1 E H1 H2.
  - destruct k1 as [|z k1]; cbn [app] in E.
    + by injection E as ->.
    + injection E as -> ->. exfalso. apply H2.
      apply in_app_iff. right. by left.
  - destruct k1 as [|z k1]; cbn [app] in E.
    + injection E as -> _. exfalso. apply H1. by left.
    + injection E as -> E. destruct (IH k1 E) as [-> ->];
        [intros ?; apply H1; by right | done | done].
Qed.

Lemma check_path_before_endpoint env req a o s1 :
  check_path env req a o s1 ->
  Forall is_before_endpoint (events s1 ++ fail_open_log o).
Proof.
  intros P. apply Forall_app. split.
  - destruct (check_path_events _ _ _ _ _ P) as [->|(key & rl & -> & _)];
      repeat constructor.
  - destruct o; repeat constructor.
Qed.

Lemma run_trace_shape env req a :
  let sf := snd (run env req a) in
  Forall is_before_endpoint (events sf) \/
  exists pre post,
    events sf = (pre ++ EvGetResponse :: post)%list /\
    Forall is_before_endpoint pre /\
    Forall (is_release (data sf)) post.
Proof.
  cbv zeta.
  destruct (run_state env req a) as (o & s1 & _ & P & _ & _ & Hd & Hev).
  pose proof (check_path_before_endpoint _ _ _ _ _ P) as Hpre.
  rewrite Hev, Hd. unfold tail_events.
  assert (Hpost : Forall (is_release (data s1))
            match get_response env req (attrs s1) with
            | Ok r => process_trace env (attrs s1) (data s1) r
            | _ => []
            end).
  { apply List.Forall_forall. intros ev Hin.
    destruct (get_response env req (attrs s1)); [|done|done].
    by eapply process_trace_events. }
  destruct o as [[|v]|e|b].
  - right. eexists _, _. split; [|split; [exact Hpre|exact Hpost]].
    by rewrite <- !app_assoc.
  - left. rewrite app_nil_r. cbn [fail_open_log] in Hpre.
    by rewrite app_nil_r in Hpre.
  - right. eexists _, _. split; [|split; [exact Hpre|exact Hpost]].
    by rewrite <- !app_assoc.
  - left. rewrite app_nil_r. cbn [fail_open_log] in Hpre.
    by rewrite app_nil_r in Hpre.
Qed.

Lemma before_endpoint_not_endpoint l :
  Forall is_before_endpoint l ->
  ~ In EvGetResponse l /\ forall k u, ~ In (EvFinish k u) l.
Proof.
  intros H. rewrite List.Forall_forall in H.
  split; [|intros k u]; intros Hin; by apply H in Hin.
Qed.

Lemma release_not_before l d :
  Forall (is_release d) l ->
  ~ In EvGetResponse l /\
  (forall k rl u, ~ In (EvCheck k rl u) l) /\
  (forall h, ~ In (EvUuid4 h) l).
Proof.
  intros H. rewrite List.Forall_forall in H.
  split; [|split; [intros k rl u|intros h]]; intros Hin; by apply H in Hin.
Qed.

(** X6.  The calls come in the order check, endpoint, release: wherever the
    endpoint call stands in the trace, no release precedes it and no check
    and no id draw follows it, and the endpoint is called only that once. *)
Theorem endpoint_between_check_and_release env req a pre post :
  events (snd (run env req a)) = (pre ++ EvGetResponse :: post)%list ->
  (forall k u, ~ In (EvFinish k u) pre) /\
  ~ In EvGetResponse pre /\
  (forall k rl u, ~ In (EvCheck k rl u) post) /\
  (forall h, ~ In (EvUuid4 h) post) /\
  ~ In EvGetResponse post.
Proof.
  intros E.
  destruct (run_trace_shape env req a) as [Hall|(A & B & E' & HA & HB)].
  - exfalso. rewrite E in Hall.
    apply before_endpoint_not_endpoint in Hall as [Hno _].
    apply Hno. apply in_app_iff. right. by left.
  - destruct (before_endpoint_not_endpoint _ HA) as [HA1 HA2].
    destruct (release_not_before _ _ HB) as (HB1 & HB2 & HB3).
    rewrite E in E'. symmetry in E'.
    destruct (split_at_unique _ _ _ _ _ E' HA1 HB1) as [-> ->].
    auto.
Qed.

Lemma endpoint_between_check_and_release_witness :
  let env := env_example false NOT_LIMITED false in
  let pre := [EvUuid4 (uuid4_hex env);
              EvCheck (PyStr key_example) policy_example
                (PyStr (uuid4_hex env))] in
  let post := [EvFinish (PyStr key_example) (PyStr (uuid4_hex env))] in
  events (snd (run env request_example ∅))
    = (pre ++ EvGetResponse :: post)%list /\
  (forall k u, ~ In (EvFinish k u) pre) /\
  ~ In EvGetResponse pre /\
  (forall k rl u, ~ In (EvCheck k rl u) post) /\
  (forall h, ~ In (EvUuid4 h) post) /\
  ~ In EvGetResponse post.
Proof.
  cbv zeta.
  assert (E : events (snd (run (env_example false NOT_LIMITED false)
                             request_example ∅)) =
    ([EvUuid4 (uuid4_hex (env_example false NOT_LIMITED false));
      EvCheck (PyStr key_example) policy_example
        (PyStr (uuid4_hex (env_example false NOT_LIMITED false)))]
     ++ EvGetResponse ::
     [EvFinish (PyStr key_example)
        (PyStr (uuid4_hex (env_example false NOT_LIMITED false)))])%list)
    by (vm_compute; reflexivity).
  split; [exact E|].
  exact (endpoint_between_check_and_release _ _ _ _ _ E).
Defined.

Lemma process_trace_counts env a d r :
  List.filter is_check_event (process_trace env a d r) = [] /\
  List.filter is_endpoint_event (process_trace env a d r) = [] /\
  (length (List.filter is_finish_event (process_trace env a d r)) <= 1)%nat.
Proof.
  unfold process_trace, release.
  destruct (fst (populate env _ r)); [cbn; auto|].
  destruct (d !! "rate_limit_key"); [|cbn; auto].
  destruct (d !! "rate_limit_uid"); [|cbn; auto].
  destruct (finish_request env _ _); cbn; auto.
Qed.

(** X7.  In one run the check, the endpoint and the release are each called
    at most once. *)
Theorem each_collaborator_called_at_most_once env req a :
  let evs := events (snd (run env req a)) in
  (length (List.filter is_check_event evs) <= 1)%nat /\
  (length (List.filter is_endpoint_event evs) <= 1)%nat /\
  (length (List.filter is_finish_event evs) <= 1)%nat.
Proof.
  cbv zeta.
  destruct (run_state env req a) as (o & s1 & _ & P & _ & _ & _ & Hev).
  rewrite Hev. rewrite !List.filter_app, !length_app.
  assert (Hs1 : (length (List.filter is_check_event (events s1)) <= 1)%nat /\
                List.filter is_endpoint_event (events s1) = [] /\
                List.filter is_finish_event (events s1) = []).
  { destruct (check_path_events _ _ _ _ _ P) as [->|(key & rl & -> & _)];
      cbn; auto. }
  destruct Hs1 as (Hc & -> & ->).
  assert (Ht : List.filter is_check_event (tail_events env req o s1) = [] /\
               (length (List.filter is_endpoint_event
                          (tail_events env req o s1)) <= 1)%nat /\
               (length (List.filter is_finish_event
                          (tail_events env req o s1)) <= 1)%nat).
  { unfold tail_events.
    destruct o as [[|v]|e|b]; [|cbn; auto| |cbn; auto];
      rewrite !List.filter_app, !length_app; cbn [fail_open_log];
      (destruct (get_response env req (attrs s1)) as [r|e'|b'];
         [destruct (process_trace_counts env (attrs s1) (data s1) r)
            as (-> & -> & Hf)
         | |]); cbn; auto. }
  destruct Ht as (-> & He & Hf). cbn [length]. lia.
Qed.

Lemma process_trace_released env a d r k u :
  fst (populate env (default PyNone (a !! "rate_limit_metadata")) r) = None ->
  d !! "rate_limit_key" = Some k ->
  d !! "rate_limit_uid" = Some u ->
  process_trace env a d r =
    EvFinish k u ::
    match finish_request env k u with
    | Raise e => [EvLogException MSG_HEADERS e]
    | _ => []
    end.
Proof.
  intros Hp Hk Hu. unfold process_trace, release. rewrite Hp, Hk, Hu.
  by destruct (finish_request env k u).
Qed.

Lemma check_path_meta_attr env req a o s1 :
  check_path env req a o s1 ->
  a !! "rate_limit_metadata" = None ->
  attrs s1 !! "rate_limit_metadata" = None \/
  exists m, attrs s1 !! "rate_limit_metadata" = Some (PyMeta m).
Proof.
  intros P Ha.
  destruct P; cbn [mk attrs]; unfold attrs_meta, attrs_cat, attrs_init;
    first [ left; by rewrite !lookup_insert_ne by done
          | right; eexists; apply lookup_insert_eq ].
Qed.

Lemma populate_succeeds env req a o s1 r :
  check_path env req a o s1 ->
  a !! "rate_limit_metadata" = None ->
  (forall n v, setitem_raises env n v = None) ->
  fst (populate env (default PyNone (attrs s1 !! "rate_limit_metadata")) r)
    = None.
Proof.
  intros P Ha Hset.
  destruct (check_path_meta_attr _ _ _ _ _ P Ha) as [->|[m ->]];
    cbn [default from_option id]; [done|].
  by apply populate_meta.
Qed.

(** X8.  For a request that arrives without a [rate_limit_metadata]
    attribute and whose header assignments do not raise: once the key and
    the id are stored in [data] and the endpoint has returned a response,
    [finish_request] is called with that key and id right after the
    endpoint, and what follows is nothing, or the log entry of the
    exception that [finish_request] raised. *)
Theorem release_follows_endpoint env req a k u r :
  let sf := snd (run env req a) in
  a !! "rate_limit_metadata" = None ->
  (forall n v, setitem_raises env n v = None) ->
  data sf !! "rate_limit_key" = Some k ->
  data sf !! "rate_limit_uid" = Some u ->
  In EvGetResponse (events sf) ->
  get_response env req (attrs sf) = Ok r ->
  exists pre post,
    events sf = (pre ++ EvGetResponse :: EvFinish k u :: post)%list /\
    (post = [] \/
     exists e,
       finish_request env k u = Raise e /\
       post = [EvLogException "COULD NOT POPULATE RATE LIMIT HEADERS" e]).
Proof.
  cbv zeta.
  destruct (run_state env req a) as (o & s1 & _ & P & _ & Ha & Hd & Hev).
  rewrite Ha, Hd, Hev. intros Hfresh Hset Hk Hu Hin Hget.
  pose proof (populate_succeeds env req a o s1 r P Hfresh Hset) as Hpop.
  assert (Hnot : o <> Ok (Return None) /\
                 forall x, o <> Ok (Return (Some x))).
  { split; [|intros x]; intros ->; rewrite app_nil_r in Hin;
      destruct (check_path_events _ _ _ _ _ P) as [E|(key & rl & E & _)];
      rewrite E in Hin; cbn [In] in Hin; intuition discriminate. }
  assert (Hab : forall b, o <> Abort b).
  { intros b ->. rewrite app_nil_r in Hin.
    destruct (check_path_events _ _ _ _ _ P) as [E|(key & rl & E & _)];
      rewrite E in Hin; cbn [In] in Hin; intuition discriminate. }
  exists (events s1 ++ fail_open_log o)%list.
  exists (match finish_request env k u with
          | Raise e => [EvLogException MSG_HEADERS e]
          | _ => []
          end).
  split.
  - unfold tail_events.
    destruct o as [[|[v|]]|e|b];
      try (by destruct Hnot as [? H]; first
        [ exfalso; congruence | exfalso; eapply H; reflexivity ]);
      try (by destruct (Hab b));
      rewrite Hget, (process_trace_released _ _ _ _ k u Hpop Hk Hu);
      by rewrite <- !app_assoc.
  - destruct (finish_request env k u) as [[]|e|b];
      [by left|right; eauto|by left].
Qed.

Lemma release_follows_endpoint_witness :
  let env := env_finish_raises in
  let sf := snd (run env request_example ∅) in
  exists pre post,
    events sf =
      (pre ++ EvGetResponse ::
       EvFinish (PyStr key_example) (PyStr (uuid4_hex env)) :: post)%list /\
    (post = [] \/
     exists e,
       finish_request env (PyStr key_example) (PyStr (uuid4_hex env))
         = Raise e /\
       post = [EvLogException "COULD NOT POPULATE RATE LIMIT HEADERS" e]).
Proof.
  apply (release_follows_endpoint env_finish_raises request_example ∅
           (PyStr key_example) (PyStr (uuid4_hex env_finish_raises))
           response_example).
  - reflexivity.
  - reflexivity.
  - vm_compute. reflexivity.
  - vm_compute. reflexivity.
  - vm_compute. right. right. left. reflexivity.
  - reflexivity.
Defined.

Ltac same_calls :=
  repeat match goal with
  | H1 : ?x = ?v1, H2 : ?x = ?v2 |- _ => rewrite H1 in H2; simplify_eq
  end.

(** X9.  The release does not depend on the check having been made: when
    the key resolves but the first [try] block fails before the check (no
    [view_class], an invalid category, a raising policy lookup) and the
    endpoint then answers, [finish_request] is called for the key and the
    id although [above_rate_limit_check] never was. *)
Theorem release_without_check env req a vf key r :
  let sf := snd (run env req a) in
  a !! "rate_limit_metadata" = None ->
  resolve env (path req) = Ok vf ->
  get_rate_limit_key env vf req = Ok (Some key) ->
  (forall k rl u, ~ In (EvCheck k rl u) (events sf)) ->
  In EvGetResponse (events sf) ->
  get_response env req (attrs sf) = Ok r ->
  In (EvFinish (PyStr key) (PyStr (uuid4_hex env))) (events sf).
Proof.
  cbv zeta.
  destruct (run_state env req a) as (o & s1 & _ & P & _ & Ha & _ & Hev).
  rewrite Ha, Hev. intros Hfresh Hr Hk Hno Hin Hget.
  apply in_app_iff. right. unfold tail_events.
  destruct P; path_facts; same_calls;
    try (exfalso; eapply Hno; right; left; reflexivity);
    try (exfalso; rewrite app_nil_r in Hin; cbn [In] in Hin;
         intuition discriminate);
    rewrite Hget, !in_app_iff; right; right;
    (rewrite (process_trace_released _ _ _ _ (PyStr key)
               (PyStr (uuid4_hex env)));
     [ by left
     | unfold attrs_cat, attrs_init; rewrite !lookup_insert_ne by done;
       by rewrite Hfresh
     | apply data_keyed_key
     | apply data_keyed_uid ]).
Qed.

Lemma release_without_check_witness :
  let env := env_policy_raises in
  (forall k rl u,
     ~ In (EvCheck k rl u) (events (snd (run env request_example ∅)))) /\
  In (EvFinish (PyStr key_example) (PyStr (uuid4_hex env)))
     (events (snd (run env request_example ∅))).
Proof.
  cbv zeta.
  assert (Hno : forall k rl u,
            ~ In (EvCheck k rl u)
                (events (snd (run env_policy_raises request_example ∅))))
    by (intros k rl u; vm_compute; intuition discriminate).
  split; [exact Hno|].
  apply (release_without_check env_policy_raises request_example ∅
           (view_example false) key_example response_example).
  - reflexivity.
  - reflexivity.
  - reflexivity.
  - exact Hno.
  - vm_compute. right. right. left. reflexivity.
  - reflexivity.
Defined.

(** X10.  When URL resolution or key resolution raises [e], [data] is still
    empty at line 102: the request goes to the endpoint and its response is
    returned as it is, but two exceptions are logged, [e] by the first
    handler and [KeyError "rate_limit_key"] by the second. *)
Theorem fail_open_before_key_logs_twice env req a e r :
  a !! "rate_limit_metadata" = None ->
  (resolve env (path req) = Raise e \/
   exists vf,
     resolve env (path req) = Ok vf /\
     get_rate_limit_key env vf req = Raise e) ->
  get_response env req (<["rate_limit_category" := PyNone]> a) = Ok r ->
  fst (run env req a) = Ok (Some r) /\
  events (snd (run env req a)) =
    [EvUuid4 (uuid4_hex env);
     EvLogException
       "Error during rate limiting, failing open. THIS SHOULD NOT HAPPEN" e;
     EvGetResponse;
     EvLogException "COULD NOT POPULATE RATE LIMIT HEADERS"
       (KeyError "rate_limit_key")].
Proof.
  intros Hfresh Hraise Hget.
  destruct (run_state env req a) as (o & s1 & _ & P & R & _ & _ & Hev).
  rewrite Hev, R.
  destruct P; path_facts;
    try (destruct Hraise as [?|(vf' & ? & ?)]; simplify_eq; congruence);
    (assert (e0 = e) as ->
       by (destruct Hraise as [?|(vf' & ? & ?)]; simplify_eq; congruence));
    unfold after_check, tail_events, process_result, populated, process_trace;
    cbn [attrs data mk events]; unfold attrs_init in *; rewrite Hget;
    rewrite lookup_insert_ne by done; rewrite Hfresh;
    cbn [default from_option id]; split; reflexivity.
Qed.

Lemma fail_open_before_key_logs_twice_witness :
  let env := env_resolve_raises in
  fst (run env request_example ∅) = Ok (Some response_example) /\
  events (snd (run env request_example ∅)) =
    [EvUuid4 (uuid4_hex env);
     EvLogException
       "Error during rate limiting, failing open. THIS SHOULD NOT HAPPEN"
       (Failure "Resolver404");
     EvGetResponse;
     EvLogException "COULD NOT POPULATE RATE LIMIT HEADERS"
       (KeyError "rate_limit_key")].
Proof.
  apply (fail_open_before_key_logs_twice env_resolve_raises request_example ∅).
  - reflexivity.
  - left. reflexivity.
  - reflexivity.
Defined.

Lemma assign_headers_stops env pre n v post e : forall r,
  Forall (fun nv => setitem_raises env (fst nv) (snd nv) = None) pre ->
  setitem_raises env n v = Some e ->
  assign_headers env (pre ++ (n, v) :: post) r = (Some e, assign_all pre r).
Proof.
  induction pre as [|[n' v'] pre IH]; intros r Hpre Hn.
  - cbn [app assign_headers assign_all fold_left]. by rewrite Hn.
  - inversion Hpre as [|x l Hx Hl]; subst. cbn [fst snd] in Hx.
    cbn [app assign_headers]. rewrite Hx.
    rewrite IH by done. reflexivity.
Qed.

(** X11.  The headers are assigned in the order of lines 93-101 and the
    first assignment that raises ends the second [try] block: the response
    returned has exactly the headers assigned before it, the exception is
    logged, and [finish_request] is not called. *)
Theorem headers_stop_at_first_refusal env req a k rl u m r pre n v post e :
  let sf := snd (run env req a) in
  In (EvCheck k rl u) (events sf) ->
  above_rate_limit_check env k rl u = Ok m ->
  In EvGetResponse (events sf) ->
  get_response env req (attrs sf) = Ok r ->
  meta_headers m = (pre ++ (n, v) :: post)%list ->
  Forall (fun nv => setitem_raises env (fst nv) (snd nv) = None) pre ->
  setitem_raises env n v = Some e ->
  fst (run env req a) = Ok (Some (assign_all pre r)) /\
  (exists evs,
     events sf =
       (evs ++ [EvGetResponse;
                EvLogException "COULD NOT POPULATE RATE LIMIT HEADERS" e])%list)
  /\ forall k' u', ~ In (EvFinish k' u') (events sf).
Proof.
  cbv zeta.
  destruct (run_state env req a) as (o & s1 & _ & P & R & Ha & _ & Hev).
  intros Hin Hchk Hhit Hget Hsplit Hpre Hn.
  apply (run_check_events _ _ _ _ _ _ _ _ Hev) in Hin.
  rewrite Ha in Hget. rewrite Hev in Hhit. rewrite Hev, R.
  destruct P; path_facts; try (intuition discriminate);
    destruct Hin as [?|[?|[]]]; simplify_eq; try congruence;
    same_meta m.
  3: { exfalso. cbn [tail_events app In] in Hhit. intuition discriminate. }
  all: unfold after_check, tail_events, process_result, populated,
      process_trace;
    cbn [attrs data mk events]; rewrite Hget;
    unfold attrs_meta; rewrite lookup_insert_eq;
    cbn [default from_option id populate truthy];
    rewrite Hsplit, (assign_headers_stops env pre n v post e r Hpre Hn);
    cbn [fst snd fail_open_log app];
    (split; [reflexivity|]); split;
    [ eexists [_; _]; reflexivity
    | intros k' u'; cbn [In]; intuition discriminate ].
Qed.

Lemma headers_stop_at_first_refusal_witness :
  let env := env_bad_header in
  let m := meta_example NOT_LIMITED in
  fst (run env request_example ∅) =
    Ok (Some (assign_all
                [("X-Sentry-Rate-Limit-Remaining", PyInt (remaining m));
                 ("X-Sentry-Rate-Limit-Limit", PyInt (limit m))]
                response_example)) /\
  (exists evs,
     events (snd (run env request_example ∅)) =
       (evs ++ [EvGetResponse;
                EvLogException "COULD NOT POPULATE RATE LIMIT HEADERS"
                  (Failure "BadHeaderError")])%list)
  /\ forall k' u',
       ~ In (EvFinish k' u') (events (snd (run env request_example ∅))).
Proof.
  apply (headers_stop_at_first_refusal env_bad_header request_example ∅
           (PyStr key_example) policy_example
           (PyStr (uuid4_hex env_bad_header)) (meta_example NOT_LIMITED)
           response_example
           [("X-Sentry-Rate-Limit-Remaining",
             PyInt (remaining (meta_example NOT_LIMITED)));
            ("X-Sentry-Rate-Limit-Limit",
             PyInt (limit (meta_example NOT_LIMITED)))]
           "X-Sentry-Rate-Limit-Reset"
           (PyInt (reset_time (meta_example NOT_LIMITED)))
           [("X-Sentry-Rate-Limit-ConcurrentRemaining",
             py_of_option_int (concurrent_remaining (meta_example NOT_LIMITED)));
            ("X-Sentry-Rate-Limit-ConcurrentLimit",
             py_of_option_int (concurrent_limit (meta_example NOT_LIMITED)))]
           (Failure "BadHeaderError")).
  - vm_compute. right. left. reflexivity.
  - reflexivity.
  - vm_compute. right. right. left. reflexivity.
  - reflexivity.
  - reflexivity.
  - repeat constructor.
  - reflexivity.
Defined.

(** X12.  [key.split(":", 1)] gives one or two pieces: one, the key itself,
    when the key has no colon; otherwise two, the first of which has no
    colon and which joined by a colon give the key back. *)
Theorem split_colon_rejoin s :
  match str_split_colon_1 s with
  | [h] => s = h /\ ~ In ":"%char (list_ascii_of_string s)
  | [h; t] => s = h ++ ":" ++ t /\ ~ In ":"%char (list_ascii_of_string h)
  | _ => False
  end.
Proof.
  unfold str_split_colon_1.
  destruct (partition_colon_spec s) as [Hn He].
  destruct (partition_colon s) as [h [t|]]; cbn [fst snd] in *.
  - done.
  - split; [done|]. by rewrite He.
Qed.

(** X13.  An exception of [finish_request] does not reach the caller: the
    middleware still returns a response, and the exception is logged by
    the second handler as the last event, right after the release call. *)
Theorem release_failure_is_logged env req a k u e :
  In (EvFinish k u) (events (snd (run env req a))) ->
  finish_request env k u = Raise e ->
  (exists r, fst (run env req a) = Ok (Some r)) /\
  exists pre,
    events (snd (run env req a)) =
      (pre ++ [EvFinish k u;
               EvLogException "COULD NOT POPULATE RATE LIMIT HEADERS" e])%list.
Proof.
  destruct (run_state env req a) as (o & s1 & _ & P & R & _ & _ & Hev).
  rewrite Hev, R. intros Hin Hfin.
  apply in_app_iff in Hin as [Hin|Hin].
  { exfalso.
    destruct (check_path_events _ _ _ _ _ P) as [E|(key & rl & E & _)];
      rewrite E in Hin; cbn [In] in Hin; intuition discriminate. }
  unfold tail_events, after_check in *.
  assert (Htrace : forall r,
    In (EvFinish k u) (process_trace env (attrs s1) (data s1) r) ->
    process_trace env (attrs s1) (data s1) r =
      [EvFinish k u; EvLogException MSG_HEADERS e] /\
    process_result env (attrs s1) (data s1) r =
      Ok (Some (populated env (attrs s1) r))).
  { intros r. unfold process_trace, process_result, release.
    destruct (fst (populate env _ r));
      [cbn [In]; intuition discriminate|].
    destruct (data s1 !! "rate_limit_key") as [k'|];
      [|cbn [In app]; intuition discriminate].
    destruct (data s1 !! "rate_limit_uid") as [u'|];
      [|cbn [In app]; intuition discriminate].
    intros Hk.
    assert (k' = k /\ u' = u) as [-> ->].
    { destruct (finish_request env k' u');
        cbn [In app] in Hk; destruct Hk as [[= -> ->]|Hk]; try done;
        cbn [In] in Hk; intuition discriminate. }
    by rewrite Hfin. }
  destruct o as [[|v]|e1|b1]; [|destruct Hin| |destruct Hin];
    rewrite !in_app_iff in Hin; cbn [In fail_open_log] in Hin;
    (destruct (get_response env req (attrs s1)) as [r|e2|b2];
       [|cbn [In] in Hin; intuition discriminate
        |cbn [In] in Hin; intuition discriminate]);
    (assert (Hin' : In (EvFinish k u)
                      (process_trace env (attrs s1) (data s1) r))
       by (intuition discriminate));
    destruct (Htrace r Hin') as [-> Hres]; cbn [fst]; rewrite Hres;
    (split; [eexists; reflexivity|]);
    cbn [snd events fail_open_log].
  - exists (events s1 ++ [EvGetResponse])%list. by rewrite <- !app_assoc.
  - exists (events s1 ++ [EvLogException MSG_FAIL_OPEN e1; EvGetResponse])%list.
    by rewrite <- !app_assoc.
Qed.

Lemma release_failure_is_logged_witness :
  let env := env_finish_raises in
  (exists r, fst (run env request_example ∅) = Ok (Some r)) /\
  exists pre,
    events (snd (run env request_example ∅)) =
      (pre ++ [EvFinish (PyStr key_example) (PyStr (uuid4_hex env));
               EvLogException "COULD NOT POPULATE RATE LIMIT HEADERS"
                 (Failure "redis timeout")])%list.
Proof.
  apply (release_failure_is_logged env_finish_raises request_example ∅).
  - vm_compute. right. right. right. left. reflexivity.
  - reflexivity.
Defined.

(** X14.  An endpoint class whose [enforce_rate_limit] is missing or false
    is never answered by the middleware itself: whatever the check says,
    a response that the middleware returns comes from the endpoint, with
    the endpoint's status and content. *)
Theorem non_enforcing_endpoint_is_never_rejected env req a vf cls r :
  resolve env (path req) = Ok vf ->
  view_class vf = Some cls ->
  truthy (class_getattr_default cls "enforce_rate_limit" (PyBool false))
    = false ->
  fst (run env req a) = Ok (Some r) ->
  In EvGetResponse (events (snd (run env req a))) /\
  exists r0,
    get_response env req (attrs (snd (run env req a))) = Ok r0 /\
    status_code r = status_code r0 /\
    content r = content r0.
Proof.
  destruct (run_state env req a) as (o & s1 & _ & P & R & Ha & _ & Hev).
  rewrite Ha, Hev, R. intros Hr Hc Henf Hres.
  assert (Hgo : forall o',
            fst (after_check env req o' s1) = Ok (Some r) ->
            In EvGetResponse (events s1 ++ fail_open_log o' ++ [EvGetResponse]
               ++ match get_response env req (attrs s1) with
                  | Ok r => process_trace env (attrs s1) (data s1) r
                  | _ => []
                  end) /\
            exists r0,
              get_response env req (attrs s1) = Ok r0 /\
              status_code r = status_code r0 /\ content r = content r0).
  { intros o'. unfold after_check.
    destruct (get_response env req (attrs s1)) as [r0|e0|b0];
      [|discriminate|discriminate].
    cbn [fst]. result_cases; [|discriminate]. intros [= <-]. split.
    - rewrite !in_app_iff. cbn [In]. tauto.
    - exists r0. destruct (populated_body env (attrs s1) r0) as [-> ->]. auto. }
  destruct P; path_facts; same_calls; try discriminate;
    try (by apply (Hgo (Raise _)));
    try (by apply (Hgo (Ok Fallthrough))).
Qed.

Lemma non_enforcing_endpoint_is_never_rejected_witness :
  let env := env_example true FIXED_WINDOW false in
  data (snd (run env request_example ∅)) !! "will_be_rate_limited"
    = Some (PyBool true) /\
  In EvGetResponse (events (snd (run env request_example ∅))).
Proof.
  split; [vm_compute; reflexivity|].
  apply (non_enforcing_endpoint_is_never_rejected
           (env_example true FIXED_WINDOW false) request_example ∅
           (view_example false) (endpoint_example false)
           (populated (env_example true FIXED_WINDOW false)
              (attrs (snd (run (env_example true FIXED_WINDOW false)
                             request_example ∅)))
              response_example)).
  - reflexivity.
  - reflexivity.
  - vm_compute. reflexivity.
  - vm_compute. reflexivity.
Defined.
